(** * deep-sdm-oceans: examples/geolifeclef/cnn_on_temperature_patches.py

    A shallow embedding of the repository's own logic in that script:
    the transform [ReplaceChannelsByBIOTEMPTransform], the two transform
    pipelines of [GeoLifeCLEF2022DataModule] and its [get_dataset].

    The script is glue around numpy, torch and torchvision.  What those
    libraries do is modelled here as far as the script relies on it, from
    their documented behaviour: numpy broadcasting and type promotion,
    IEEE-754 arithmetic (through [SpecFloat]), the output size of
    torchvision's [resize], cropping, flipping and [Normalize].  The two
    resampling kernels (the interpolation of [resize], the coordinate map of
    [rotate]) stay abstract, see [Kernels]. *)

From Stdlib Require Import ZArith QArith Qabs List Bool Lia.
From Stdlib Require Import Floats.SpecFloat.
From stdpp Require Import gmap strings.

Local Open Scope nat_scope.

(** ** Results of Python calls: a value, or an exception raised *)

Inductive exn := ValueError | TypeError | ZeroDivisionError | RuntimeError.

Inductive result (A : Type) :=
| Ok (a : A)
| Raise (e : exn).
Arguments Ok {A} a.
Arguments Raise {A} e.

Definition bind {A B} (r : result A) (k : A -> result B) : result B :=
  match r with
  | Ok a => k a
  | Raise e => Raise e
  end.

#[global] Instance result_ret : MRet result := fun _ a => Ok a.
#[global] Instance result_bind : MBind result := fun _ _ k r => bind r k.

(** ** Scalars and dtypes *)

(** The dtypes of numpy that [torch.as_tensor] converts, as far as they
    are numeric and real: every [dense] array below has one of them.  An
    array of another dtype is an [array] that is not [Dense], see
    [normalized_any]. *)
Inductive dtype :=
| int8 | int16 | int32 | int64
| uint8 | uint16 | uint32 | uint64
| float16 | float32 | float64.

#[global] Instance dtype_eq_dec : EqDecision dtype.
Proof. solve_decision. Defined.

(** An array element: an integer (integer dtypes) or an IEEE-754 value. *)
Inductive scalar :=
| SInt (z : Z)
| SFloat (x : spec_float).

(** Precision and exponent bound of the binary formats. *)
Record format := { prec : Z; emax : Z }.

Definition binary16 := {| prec := 11; emax := 16 |}.
Definition binary32 := {| prec := 24; emax := 128 |}.
Definition binary64 := {| prec := 53; emax := 1024 |}.

Definition float_format (d : dtype) : option format :=
  match d with
  | float16 => Some binary16
  | float32 => Some binary32
  | float64 => Some binary64
  | _ => None
  end.

Definition is_floating (d : dtype) : bool :=
  match float_format d with Some _ => true | None => false end.

(** Width in bits and signedness of the integer dtypes. *)
Definition int_bits (d : dtype) : Z :=
  match d with
  | int8 | uint8 => 8
  | int16 | uint16 => 16
  | int32 | uint32 => 32
  | _ => 64
  end.

Definition is_signed (d : dtype) : bool :=
  match d with
  | uint8 | uint16 | uint32 | uint64 => false
  | _ => true
  end.

Module ieee.

(** Round a finite or special value into format [f], to nearest even. *)
Definition round (f : format) (x : spec_float) : spec_float :=
  match x with
  | S754_finite s m e => binary_round (prec f) (emax f) s m e
  | _ => x
  end.

Definition of_Z (f : format) (z : Z) : spec_float :=
  binary_normalize (prec f) (emax f) z 0 false.

(** Truncation toward zero, the C conversion of a float to an integer. *)
Definition to_Z (x : spec_float) : Z :=
  match x with
  | S754_finite s m e =>
      cond_Zopp s (if (0 <=? e)%Z then Z.shiftl (Zpos m) e
                   else Z.quot (Zpos m) (2 ^ (- e)))
  | _ => 0%Z
  end.

Definition add (f : format) := SFadd (prec f) (emax f).
Definition sub (f : format) := SFsub (prec f) (emax f).
Definition div (f : format) := SFdiv (prec f) (emax f).


(** The double nearest to the decimal literal [q], as Python reads it. *)
Definition of_literal (q : Q) : spec_float :=
  div binary64 (of_Z binary64 (Qnum q)) (of_Z binary64 (Zpos (Qden q))).

End ieee.

(** Two's complement (or unsigned) wrap-around into an integer dtype. *)
Definition wrap (d : dtype) (z : Z) : Z :=
  let m := (2 ^ int_bits d)%Z in
  if is_signed d then ((z + m / 2) mod m - m / 2)%Z else (z mod m)%Z.

(** Conversions of a scalar: to a float of format [f] (rounding), to the
    integer dtype [d] (truncating, then wrapping), and numpy's [astype]. *)
Definition to_float (f : format) (s : scalar) : spec_float :=
  match s with
  | SInt z => ieee.of_Z f z
  | SFloat x => ieee.round f x
  end.

Definition to_int (d : dtype) (s : scalar) : Z :=
  match s with
  | SInt z => wrap d z
  | SFloat x => wrap d (ieee.to_Z x)
  end.

Definition astype (d : dtype) (s : scalar) : scalar :=
  match float_format d with
  | Some f => SFloat (to_float f s)
  | None => SInt (to_int d s)
  end.

(** ** Dense arrays

    A numpy array or a torch tensor of rank 3, laid out (channels, height,
    width) as the patch extractor returns it: its dtype, its shape and its
    elements by index. *)

Record dense := {
  dtype_of : dtype;
  chans : nat;
  height : nat;
  width : nat;
  item : nat -> nat -> nat -> scalar
}.

Definition shape (a : dense) : nat * nat * nat := (chans a, height a, width a).

(** ** numpy *)

Module np.

Definition float_rank (d : dtype) : nat :=
  match d with float16 => 1 | float32 => 2 | float64 => 3 | _ => 0 end.

Definition float_of_rank (n : nat) : dtype :=
  match n with 0 | 1 => float16 | 2 => float32 | _ => float64 end.

(** Rank of the smallest float dtype holding every value of an integer
    dtype. *)
Definition int_as_float (d : dtype) : nat :=
  if (int_bits d <=? 8)%Z then 1 else if (int_bits d <=? 16)%Z then 2 else 3.

Definition signed_of_bits (b : Z) : dtype :=
  if (b <=? 8)%Z then int8 else if (b <=? 16)%Z then int16
  else if (b <=? 32)%Z then int32 else int64.

(** [np.result_type]: the dtype two array operands are promoted to. *)
Definition result_type (d1 d2 : dtype) : dtype :=
  match is_floating d1, is_floating d2 with
  | true, true => float_of_rank (Nat.max (float_rank d1) (float_rank d2))
  | true, false => float_of_rank (Nat.max (float_rank d1) (int_as_float d2))
  | false, true => float_of_rank (Nat.max (int_as_float d1) (float_rank d2))
  | false, false =>
      if Bool.eqb (is_signed d1) (is_signed d2) then
        if (int_bits d1 <=? int_bits d2)%Z then d2 else d1
      else
        let '(s, u) := if is_signed d1 then (d1, d2) else (d2, d1) in
        if (int_bits u <? int_bits s)%Z then s
        else if (int_bits u <? 64)%Z then signed_of_bits (2 * int_bits u)
        else float64
  end.

(** Broadcasting of one axis: equal lengths, or one of them 1. *)
Definition broadcast_dim (n m : nat) : option nat :=
  if n =? m then Some n
  else if n =? 1 then Some m
  else if m =? 1 then Some n
  else None.

(** Index into an axis of length [n] of an operand being broadcast: an
    axis of length 1 is read at 0 whatever the index (stride 0). *)
Definition bidx (n i : nat) : nat := if n =? 1 then 0 else i.

(** An elementwise binary operation: the shapes are broadcast (a
    [ValueError] when they cannot be), the result has dtype [d]. *)
Definition binary_op (d : dtype) (op : scalar -> scalar -> scalar)
    (a b : dense) : result dense :=
  match broadcast_dim (chans a) (chans b),
        broadcast_dim (height a) (height b),
        broadcast_dim (width a) (width b) with
  | Some c, Some h, Some w =>
      Ok {| dtype_of := d; chans := c; height := h; width := w;
            item := fun k i j =>
              op (item a (bidx (chans a) k) (bidx (height a) i) (bidx (width a) j))
                 (item b (bidx (chans b) k) (bidx (height b) i) (bidx (width b) j)) |}
  | _, _, _ => Raise ValueError
  end.

Definition subtract_scalar (d : dtype) (x y : scalar) : scalar :=
  match float_format d with
  | Some f => SFloat (ieee.sub f (to_float f x) (to_float f y))
  | None => SInt (wrap d (to_int d x - to_int d y))
  end.


Definition add_scalar (d : dtype) (x y : scalar) : scalar :=
  match float_format d with
  | Some f => SFloat (ieee.add f (to_float f x) (to_float f y))
  | None => SInt (wrap d (to_int d x + to_int d y))
  end.

(** True division is carried out in floating point: in the promoted
    dtype when that is a float, in float64 for two integer operands. *)
Definition divide_dtype (d : dtype) : dtype :=
  if is_floating d then d else float64.

Definition divide_scalar (d : dtype) (x y : scalar) : scalar :=
  let f := default binary64 (float_format d) in
  SFloat (ieee.div f (to_float f x) (to_float f y)).

(** [a - b], [a * b], [a + b] and [a / b] on arrays. *)
Definition subtract (a b : dense) : result dense :=
  let d := result_type (dtype_of a) (dtype_of b) in
  binary_op d (subtract_scalar d) a b.


Definition add (a b : dense) : result dense :=
  let d := result_type (dtype_of a) (dtype_of b) in
  binary_op d (add_scalar d) a b.

Definition divide (a b : dense) : result dense :=
  let d := divide_dtype (result_type (dtype_of a) (dtype_of b)) in
  binary_op d (divide_scalar d) a b.

(** [np.asarray(l, dtype=d)[:, None, None]]: the Python floats of [l],
    converted to [d], as an array of shape (len(l), 1, 1). *)
Definition asarray_column (l : list Q) (d : dtype) : dense :=
  {| dtype_of := d; chans := length l; height := 1; width := 1;
     item := fun k _ _ =>
       astype d (SFloat (ieee.of_literal (nth k l 0%Q))) |}.

End np.

(** ** torch *)

Module torch.

(** [torch.as_tensor(a, dtype=d)]: the array itself when it already has
    dtype [d] (no copy), its elements converted to [d] otherwise. *)
Definition as_tensor (a : dense) (d : dtype) : dense :=
  if decide (dtype_of a = d) then a
  else {| dtype_of := d; chans := chans a; height := height a;
          width := width a;
          item := fun k i j => astype d (item a k i j) |}.

(** What [as_tensor] makes of one element of an array of dtype [d0]. *)
Definition as_tensor_scalar (d0 d : dtype) (s : scalar) : scalar :=
  if decide (d0 = d) then s else astype d s.

(** The default generator: the stream of its raw outputs and how many
    were drawn so far. *)
Record Generator := { tape : nat -> N; pos : nat }.

Definition random (g : Generator) : N * Generator :=
  (tape g (pos g), {| tape := tape g; pos := S (pos g) |}).

(** [torch.rand(1)]: 24 random bits scaled into [0, 1). *)
Definition rand (g : Generator) : Q * Generator :=
  let '(x, g') := random g in
  (Z.of_N (x mod 2 ^ 24) # 2 ^ 24, g')%Q.

(** [torch.randint(low, high, size=(1,)).item()] *)
Definition randint (low high : nat) (g : Generator) : nat * Generator :=
  let '(x, g') := random g in
  (low + N.to_nat (x mod N.of_nat (high - low)), g').

(** [torch.empty(1).uniform_(a, b).item()] *)
Definition uniform (a b : Q) (g : Generator) : Q * Generator :=
  let '(u, g') := rand g in
  (u * (b - a) + a, g')%Q.

End torch.

(** ** torchvision

    The resampling done inside [resize] and [rotate] is not modelled: what
    a resized image holds at an index, and which source pixel a rotation
    copies to an index, are parameters of the development. *)

Class Kernels := {
  (** [interpolate img h w k i j]: element (k, i, j) of [img] resampled to
      [h] by [w] (bilinear interpolation). *)
  interpolate : dense -> nat -> nat -> nat -> nat -> nat -> scalar;
  (** [rotate_source angle h w i j]: the pixel of an [h] by [w] image that
      nearest-neighbour rotation by [angle] degrees copies to (i, j), or
      [None] when it falls outside of the image. *)
  rotate_source : Q -> nat -> nat -> nat -> nat -> option (nat * nat)
}.

(** [torchvision.transforms.functional] *)
Module F.

(** The output size (height, width) of [resize] for an [int] size: the
    shorter edge becomes [size], the longer one [int(size * long / short)]. *)
Definition compute_resized_output_size (h w size : nat) : result (nat * nat) :=
  let '(short, long) := if w <=? h then (w, h) else (h, w) in
  if short =? 0 then Raise ZeroDivisionError
  else
    let new_short := size in
    let new_long := size * long / short in
    Ok (if w <=? h then (new_long, new_short) else (new_short, new_long)).

(** The same for the size 256 and non-empty edges. *)
Definition resized (h w : nat) : nat * nat :=
  if w <=? h then (256 * h / w, 256) else (256, 256 * w / h).

(** [resize(img, size)] with an [int] size: the image itself when it
    already has the output size, a resampled one otherwise. *)
Definition resize `{Kernels} (img : dense) (size : nat) : result dense :=
  '(new_h, new_w) ← compute_resized_output_size (height img) (width img) size;
  if (new_h =? height img) && (new_w =? width img) then Ok img
  else Ok {| dtype_of := dtype_of img; chans := chans img;
             height := new_h; width := new_w;
             item := interpolate img new_h new_w |}.

(** [crop(img, top, left, h, w)]; its callers keep the window inside of
    the image. *)
Definition crop (img : dense) (top left h w : nat) : dense :=
  {| dtype_of := dtype_of img; chans := chans img; height := h; width := w;
     item := fun k i j => item img k (top + i) (left + j) |}.

(** [pad(img, [left, top, right, bottom], fill=0)], constant mode. *)
Definition pad (img : dense) (left top right bottom : nat) : dense :=
  {| dtype_of := dtype_of img; chans := chans img;
     height := top + height img + bottom;
     width := left + width img + right;
     item := fun k i j =>
       if (top <=? i) && (i <? top + height img)
          && (left <=? j) && (j <? left + width img)
       then item img k (i - top) (j - left)
       else astype (dtype_of img) (SInt 0) |}.

(** Python's [int(round(n / 2.0))]: halves round to the even integer. *)
Definition round_half (n : nat) : nat :=
  if Nat.even n then n / 2
  else if Nat.even (n / 2) then n / 2 else n / 2 + 1.

(** [center_crop(img, [ch, cw])] *)
Definition center_crop (img : dense) (ch cw : nat) : dense :=
  let h := height img in
  let w := width img in
  let img' :=
    if (w <? cw) || (h <? ch) then
      pad img (if w <? cw then (cw - w) / 2 else 0)
              (if h <? ch then (ch - h) / 2 else 0)
              (if w <? cw then (cw - w + 1) / 2 else 0)
              (if h <? ch then (ch - h + 1) / 2 else 0)
    else img in
  let h' := height img' in
  let w' := width img' in
  if ((w <? cw) || (h <? ch)) && (cw =? w') && (ch =? h') then img'
  else crop img' (round_half (h' - ch)) (round_half (w' - cw)) ch cw.

Definition hflip (img : dense) : dense :=
  {| dtype_of := dtype_of img; chans := chans img;
     height := height img; width := width img;
     item := fun k i j => item img k i (width img - 1 - j) |}.

Definition vflip (img : dense) : dense :=
  {| dtype_of := dtype_of img; chans := chans img;
     height := height img; width := width img;
     item := fun k i j => item img k (height img - 1 - i) j |}.

(** [rotate(img, angle, NEAREST, expand=False, center=None, fill)]: the
    shape is kept, a pixel is copied from its source or is [fill]. *)
Definition rotate `{Kernels} (img : dense) (angle : Q) (fill : Q) : dense :=
  {| dtype_of := dtype_of img; chans := chans img;
     height := height img; width := width img;
     item := fun k i j =>
       match rotate_source angle (height img) (width img) i j with
       | Some (i', j') => item img k i' j'
       | None => astype (dtype_of img) (SFloat (ieee.of_literal fill))
       end |}.

Definition is_zero (s : scalar) : bool :=
  match s with
  | SFloat (S754_zero _) => true
  | SInt 0 => true
  | _ => false
  end.

(** An operation in place, [tensor.op_(other)]: [other] is broadcast to
    the shape of [tensor], which itself is never broadcast. *)
Definition inplace (d : dtype) (op : scalar -> scalar -> scalar)
    (tensor other : dense) : result dense :=
  match np.binary_op d op tensor other with
  | Ok t => if decide (shape t = shape tensor) then Ok t else Raise RuntimeError
  | Raise _ => Raise RuntimeError
  end.

(** [normalize(tensor, mean, std)]: on a copy of [tensor],
    [sub_(mean).div_(std)] with [mean] and [std] converted to its dtype
    and viewed as (len, 1, 1). *)
Definition normalize (tensor : dense) (mean std : list Q) : result dense :=
  let d := dtype_of tensor in
  if negb (is_floating d) then Raise TypeError
  else
    let mean_t := np.asarray_column mean d in
    let std_t := np.asarray_column std d in
    if existsb (fun k => is_zero (item std_t k 0 0)) (seq 0 (length std)) then
      Raise ValueError
    else
      t1 ← inplace d (np.subtract_scalar d) tensor mean_t;
      inplace d (np.divide_scalar d) t1 std_t.

End F.

(** ** The script *)

(** What a transform is handed and returns: a numpy array or a tensor. *)
Inductive value :=
| NdArray (a : dense)
| Tensor (t : dense).

(** The transform objects the script builds, with their arguments. *)
Inductive transform :=
| ReplaceChannelsByBIOTEMPTransform
| RandomRotation (degrees : Q) (fill : Q)
| RandomCrop (size : nat)
| RandomHorizontalFlip
| RandomVerticalFlip
| CenterCrop (size : nat)
| Normalize (mean std : list Q).

Definition mu : dense := np.asarray_column [-12.0; 1.0; 1.0]%Q float32.
Definition sigma : dense := np.asarray_column [40.0; 22.0; 51.0]%Q float32.

(** The dtype numpy promotes an array of dtype [d] to in an operation
    against [mu] or [sigma]. *)
Definition promoted (d : dtype) : dtype := np.result_type d float32.

(** Line 24 of [ReplaceChannelsByBIOTEMPTransform.__call__],
    [(data - mu) / sigma]. *)
Definition normalization (data : dense) : result dense :=
  data1 ← np.subtract data mu;
  np.divide data1 sigma.

(** Lines 22 to 25: the tensor that is handed to [resize]. *)
Definition normalized (data : dense) : result dense :=
  data ← normalization data;
  mret (torch.as_tensor data float32).

(** An array as numpy has it: of a dtype torch converts, or of the
    extended-precision float dtype [numpy.longdouble], which it does not
    convert. *)
Inductive array :=
| Dense (a : dense)
| LongDouble (c h w : nat) (item : nat -> nat -> nat -> spec_float).

Definition array_chans (x : array) : nat :=
  match x with
  | Dense a => chans a
  | LongDouble c _ _ _ => c
  end.

Definition array_is_floating (x : array) : bool :=
  match x with
  | Dense a => is_floating (dtype_of a)
  | LongDouble _ _ _ _ => true
  end.

(** Lines 22 to 25 on an array of any dtype.  Against a longdouble array
    numpy promotes [mu] and [sigma] to longdouble, so that the quotient,
    when the shapes broadcast, is a longdouble array: [torch.as_tensor]
    raises a [TypeError] on it, and its values are never read. *)
Definition normalized_any (data : array) : result dense :=
  match data with
  | Dense a => normalized a
  | LongDouble c _ _ _ =>
      match np.broadcast_dim c (chans mu) with
      | Some _ => Raise TypeError
      | None => Raise ValueError
      end
  end.

(** [ReplaceChannelsByBIOTEMPTransform.__call__] *)
Definition ReplaceChannelsByBIOTEMPTransform_call `{Kernels} (data : dense)
    : result dense :=
  data ← normalized data;
  F.resize data 256.

Section Transforms.
Context `{Kernels}.

Definition on_tensor (v : value) (k : dense -> result (value * torch.Generator))
    : result (value * torch.Generator) :=
  match v with
  | Tensor t => k t
  | NdArray _ => Raise TypeError
  end.

(** [RandomRotation.forward], [degrees] standing for (-degrees, degrees) *)
Definition RandomRotation_forward (degrees fill : Q) (img : dense)
    (g : torch.Generator) : dense * torch.Generator :=
  let '(angle, g') := torch.uniform (- degrees) degrees g in
  (F.rotate img angle fill, g').

(** [RandomCrop.forward], without padding *)
Definition RandomCrop_forward (size : nat) (img : dense)
    (g : torch.Generator) : result (dense * torch.Generator) :=
  let h := height img in
  let w := width img in
  if (h <? size) || (w <? size) then Raise ValueError
  else if (w =? size) && (h =? size) then Ok (F.crop img 0 0 h w, g)
  else
    let '(i, g1) := torch.randint 0 (h - size + 1) g in
    let '(j, g2) := torch.randint 0 (w - size + 1) g1 in
    Ok (F.crop img i j size size, g2).

(** [RandomHorizontalFlip.forward] and [RandomVerticalFlip.forward],
    with the default probability 0.5 *)
Definition RandomHorizontalFlip_forward (img : dense) (g : torch.Generator)
    : dense * torch.Generator :=
  let '(u, g') := torch.rand g in
  (if Qlt_le_dec u 0.5 then F.hflip img else img, g').

Definition RandomVerticalFlip_forward (img : dense) (g : torch.Generator)
    : dense * torch.Generator :=
  let '(u, g') := torch.rand g in
  (if Qlt_le_dec u 0.5 then F.vflip img else img, g').

(** One transform called on a value, with the state of the generator. *)
Definition apply (t : transform) (v : value) (g : torch.Generator)
    : result (value * torch.Generator) :=
  match t with
  | ReplaceChannelsByBIOTEMPTransform =>
      match v with
      | NdArray data =>
          r ← ReplaceChannelsByBIOTEMPTransform_call data; mret (Tensor r, g)
      | Tensor _ => Raise TypeError
      end
  | RandomRotation degrees fill =>
      on_tensor v (fun img =>
        let '(r, g') := RandomRotation_forward degrees fill img g in
        mret (Tensor r, g'))
  | RandomCrop size =>
      on_tensor v (fun img =>
        '(r, g') ← RandomCrop_forward size img g; mret (Tensor r, g'))
  | RandomHorizontalFlip =>
      on_tensor v (fun img =>
        let '(r, g') := RandomHorizontalFlip_forward img g in
        mret (Tensor r, g'))
  | RandomVerticalFlip =>
      on_tensor v (fun img =>
        let '(r, g') := RandomVerticalFlip_forward img g in
        mret (Tensor r, g'))
  | CenterCrop size =>
      on_tensor v (fun img => mret (Tensor (F.center_crop img size size), g))
  | Normalize mean std =>
      on_tensor v (fun img => r ← F.normalize img mean std; mret (Tensor r, g))
  end.

(** [transforms.Compose(ts).__call__]: the transforms in order. *)
Fixpoint Compose_call (ts : list transform) (v : value) (g : torch.Generator)
    : result (value * torch.Generator) :=
  match ts with
  | [] => Ok (v, g)
  | t :: ts' => '(v', g') ← apply t v g; Compose_call ts' v' g'
  end.

End Transforms.

(** [GeoLifeCLEF2022DataModule.train_transform] and [test_transform] *)
Definition train_transform : list transform :=
  [ ReplaceChannelsByBIOTEMPTransform;
    RandomRotation 45 255;
    RandomCrop 224;
    RandomHorizontalFlip;
    RandomVerticalFlip;
    Normalize [0.485; 0.456; 0.406]%Q [0.229; 0.224; 0.225]%Q ].

Definition test_transform : list transform :=
  [ ReplaceChannelsByBIOTEMPTransform;
    CenterCrop 224;
    Normalize [0.485; 0.456; 0.406]%Q [0.229; 0.224; 0.225]%Q ].

(** ** [__call__] on the store

    The same five lines with the objects of the interpreter made explicit:
    every array and tensor lives in a buffer of the store, a name holds a
    reference, and an operation either allocates a buffer for its result
    or hands back a reference to one that exists. *)

Module py.

Inductive ref :=
| NdArrayRef (b : nat)
| TensorRef (b : nat).

Definition buffer (r : ref) : nat :=
  match r with NdArrayRef b | TensorRef b => b end.

(** A computation on the store: stuck ([None], a dangling reference,
    which Python rules out), or an outcome and the store it leaves. *)
Definition M (A : Type) : Type :=
  gmap nat dense -> option (result A * gmap nat dense).

Definition ret {A} (a : A) : M A := fun h => Some (Ok a, h).

Definition lift {A} (r : result A) : M A := fun h => Some (r, h).

Definition bind {A B} (m : M A) (k : A -> M B) : M B :=
  fun h =>
    match m h with
    | Some (Ok a, h') => k a h'
    | Some (Raise e, h') => Some (Raise e, h')
    | None => None
    end.

Notation "x <- m ;; k" := (bind m (fun x => k))
  (at level 100, m at next level, right associativity).

Definition alloc (v : dense) : M nat :=
  fun h => let b := fresh (dom h) in Some (Ok b, <[b := v]> h).

Definition read (r : ref) : M dense :=
  fun h =>
    match h !! buffer r with
    | Some v => Some (Ok v, h)
    | None => None
    end.

(** [np.asarray(l, dtype=d)[:, None, None]]: a new array. *)
Definition asarray_column (l : list Q) (d : dtype) : M ref :=
  b <- alloc (np.asarray_column l d) ;;
  ret (NdArrayRef b).

(** [x - y], [x / y]: the operands are read, the result is a new array. *)
Definition binary (op : dense -> dense -> result dense) (x y : ref) : M ref :=
  vx <- read x ;;
  vy <- read y ;;
  v <- lift (op vx vy) ;;
  b <- alloc v ;;
  ret (NdArrayRef b).

(** [torch.as_tensor(x, dtype=d)]: a tensor on the buffer of [x] when the
    dtype is already [d], on a converted copy otherwise. *)
Definition as_tensor (x : ref) (d : dtype) : M ref :=
  vx <- read x ;;
  if decide (dtype_of vx = d) then ret (TensorRef (buffer x))
  else b <- alloc (torch.as_tensor vx d) ;; ret (TensorRef b).

(** [resize(x, size)]: [x] itself when it has the output size already,
    a new tensor otherwise. *)
Definition resize `{Kernels} (x : ref) (size : nat) : M ref :=
  vx <- read x ;;
  v <- lift (F.resize vx size) ;;
  if decide (shape v = shape vx) then ret x
  else b <- alloc v ;; ret (TensorRef b).

Definition ReplaceChannelsByBIOTEMPTransform_run `{Kernels} (data : ref) : M ref :=
  mu <- asarray_column [-12.0; 1.0; 1.0]%Q float32 ;;
  sigma <- asarray_column [40.0; 22.0; 51.0]%Q float32 ;;
  data <- binary np.subtract data mu ;;
  data <- binary np.divide data sigma ;;
  data <- as_tensor data float32 ;;
  resize data 256.

End py.

(** ** The data module *)

(** A path, by its components. *)
Definition Path (s : string) : list string := [s].
Definition joinpath (p : list string) (c : string) : list string := p ++ [c].

(** Modelled from the spec: [PatchExtractor], of
    malpolon.data.environmental_raster, is not among the sources.  A patch
    extractor is its root path, its patch size and the rasters appended to
    it so far, each under its name with the value that replaces missing
    data. *)
Record Raster := { raster_name : string; nan : Q }.

Record PatchExtractor := {
  root_path : list string;
  size : nat;
  rasters : list Raster
}.

Definition PatchExtractor_init (root_path : list string) (size : nat)
    : PatchExtractor :=
  {| root_path := root_path; size := size; rasters := [] |}.

Definition append (pe : PatchExtractor) (raster_name : string) (nan : Q)
    : PatchExtractor :=
  {| root_path := root_path pe; size := size pe;
     rasters := rasters pe ++ [{| raster_name := raster_name; nan := nan |}] |}.

(** The two dataset classes, and a dataset as the arguments it was
    constructed with (the classes themselves are not among the sources). *)
Inductive dataset_cls :=
| MiniGeoLifeCLEF2022Dataset
| GeoLifeCLEF2022Dataset.

Inductive pyval :=
| PyNone
| PyBool (b : bool)
| PyInt (z : Z)
| PyStr (s : string).

Record arguments := {
  arg_root : string;
  arg_split : string;
  patch_data : list string;
  use_rasters : bool;
  patch_extractor : PatchExtractor;
  transform_arg : list transform;
  extra : gmap string pyval
}.

Record dataset := { cls : dataset_cls; args : arguments }.

Record GeoLifeCLEF2022DataModule := {
  dataset_path : string;
  minigeolifeclef : bool;
  train_batch_size : Z;
  inference_batch_size : Z;
  num_workers : Z
}.

(** [GeoLifeCLEF2022DataModule.__init__], an absent argument taking its
    default. *)
Definition GeoLifeCLEF2022DataModule_init (dataset_path : string)
    (minigeolifeclef : option bool)
    (train_batch_size inference_batch_size num_workers : option Z)
    : GeoLifeCLEF2022DataModule :=
  {| dataset_path := dataset_path;
     minigeolifeclef := default false minigeolifeclef;
     train_batch_size := default 32%Z train_batch_size;
     inference_batch_size := default 256%Z inference_batch_size;
     num_workers := default 8%Z num_workers |}.

(** The keywords [get_dataset] passes by name: a call that repeats one of
    them through [**kwargs] raises a [TypeError]. *)
Definition keywords : list string :=
  ["patch_data"; "use_rasters"; "patch_extractor"; "transform"]%string.

Definition repeats_keyword (kwargs : gmap string pyval) : bool :=
  existsb (fun k => bool_decide (is_Some (kwargs !! k))) keywords.

(** [GeoLifeCLEF2022DataModule.get_dataset].  [PatchExtractor], [append]
    and the dataset class are those of malpolon, and are taken to return:
    what they raise themselves, on a raster that is missing or on a
    keyword they do not know, is not part of this function. *)
Definition get_dataset (self : GeoLifeCLEF2022DataModule) (split : string)
    (transform : list transform) (kwargs : gmap string pyval) : result dataset :=
  let dataset_cls :=
    if minigeolifeclef self then MiniGeoLifeCLEF2022Dataset
    else GeoLifeCLEF2022Dataset in
  let patch_extractor :=
    PatchExtractor_init (joinpath (Path (dataset_path self)) "rasters") 20 in
  let patch_extractor := append patch_extractor "bio_1" (-12.0) in
  let patch_extractor := append patch_extractor "bio_2" 1.0 in
  let patch_extractor := append patch_extractor "bio_7" 1.0 in
  if repeats_keyword kwargs then Raise TypeError
  else
    Ok {| cls := dataset_cls;
          args := {| arg_root := dataset_path self;
                     arg_split := split;
                     patch_data := [];
                     use_rasters := true;
                     patch_extractor := patch_extractor;
                     transform_arg := transform;
                     extra := kwargs |} |}.

(** ** The inverse of the normalization, and exact arithmetic *)








(** ** Examples to run the development on *)

(** A stand-in for the kernels of torchvision: nearest-neighbour
    resampling, and a rotation that leaves every pixel where it is. *)
Definition sample_kernels : Kernels :=
  {| interpolate := fun img h w k i j =>
       item img k (i * height img / h) (j * width img / w);
     rotate_source := fun _ _ _ i j => Some (i, j) |}.

(** The array of dtype [d] and shape (c, h, w) that holds [z + j] in
    column [j]. *)
Definition columns (d : dtype) (c h w : nat) (z : Z) : dense :=
  {| dtype_of := d; chans := c; height := h; width := w;
     item := fun _ _ j => astype d (SInt (z + Z.of_nat j)) |}.


(** A generator whose draws are all [x], except draw number [n], which
    is [y]. *)
Definition constant_but (x : N) (n : nat) (y : N) : torch.Generator :=
  {| torch.tape := fun m => if m =? n then y else x; torch.pos := 0 |}.

(** The value a call returns, without the state of the generator. *)
Definition returned {A B} (r : result (A * B)) : result A :=
  match r with
  | Ok (a, _) => Ok a
  | Raise e => Raise e
  end.

(** * Properties *)

(** ** Broadcasting *)

Lemma broadcast_dim_1_r n : np.broadcast_dim n 1 = Some n.
Proof.
  unfold np.broadcast_dim. destruct (n =? 1) eqn:E; [|done].
  apply Nat.eqb_eq in E. by subst.
Qed.

Lemma broadcast_dim_3 n :
  np.broadcast_dim n 3 = if (n =? 3) || (n =? 1) then Some 3 else None.
Proof.
  unfold np.broadcast_dim.
  destruct (n =? 3) eqn:E3; [by apply Nat.eqb_eq in E3; subst|].
  by destruct (n =? 1).
Qed.

Lemma bidx_lt n i : i < n -> np.bidx n i = i.
Proof.
  unfold np.bidx. destruct (n =? 1) eqn:E; [|done].
  apply Nat.eqb_eq in E. lia.
Qed.

Lemma bidx_3 k : np.bidx 3 k = k.
Proof. reflexivity. Qed.

Lemma bidx_idem n i : np.bidx n (np.bidx n i) = np.bidx n i.
Proof. unfold np.bidx. by destruct (n =? 1). Qed.

(** An operation against a column of constants broadcasts along the
    height and the width whatever they are. *)
Lemma binary_op_column d op a b c :
  height b = 1 -> width b = 1 ->
  np.broadcast_dim (chans a) (chans b) = Some c ->
  np.binary_op d op a b =
  Ok {| dtype_of := d; chans := c; height := height a; width := width a;
        item := fun k i j =>
          op (item a (np.bidx (chans a) k) (np.bidx (height a) i)
                (np.bidx (width a) j))
             (item b (np.bidx (chans b) k) 0 0) |}.
Proof.
  intros Hh Hw Hc. unfold np.binary_op.
  by rewrite Hc, Hh, Hw, !broadcast_dim_1_r.
Qed.

Lemma binary_op_column_fail d op a b :
  np.broadcast_dim (chans a) (chans b) = None ->
  np.binary_op d op a b = Raise ValueError.
Proof. intros Hc. unfold np.binary_op. by rewrite Hc. Qed.

(** ** Type promotion against float32 *)

Lemma promoted_cases d : promoted d = float32 \/ promoted d = float64.
Proof. destruct d; vm_compute; auto. Qed.

Lemma promoted_stable d :
  np.divide_dtype (np.result_type (promoted d) float32) = promoted d.
Proof. by destruct d. Qed.

(** ** The normalization step *)

(** What [(data - mu) / sigma] holds for an array of 1 or 3 channels. *)
Lemma normalization_ok data :
  chans data = 3 \/ chans data = 1 ->
  exists r,
    normalization data = Ok r /\
    dtype_of r = promoted (dtype_of data) /\
    chans r = 3 /\ height r = height data /\ width r = width data /\
    forall k i j, i < height data -> j < width data ->
      item r k i j =
      np.divide_scalar (promoted (dtype_of data))
        (np.subtract_scalar (promoted (dtype_of data))
           (item data (np.bidx (chans data) k) i j) (item mu k 0 0))
        (item sigma k 0 0).
Proof.
  intros Hc.
  assert (Hb : np.broadcast_dim (chans data) (chans mu) = Some 3).
  { change (chans mu) with 3. rewrite broadcast_dim_3. by destruct Hc as [-> | ->]. }
  unfold normalization, np.subtract, np.divide.
  rewrite (binary_op_column _ _ _ _ 3) by (reflexivity || exact Hb).
  cbn [mbind result_bind bind dtype_of].
  rewrite (binary_op_column _ _ _ _ 3) by reflexivity.
  eexists. split; [reflexivity|].
  cbn [dtype_of chans height width item].
  change (dtype_of mu) with float32. change (dtype_of sigma) with float32.
  fold (promoted (dtype_of data)). rewrite promoted_stable.
  repeat split.
  intros k i j Hi Hj.
  change (chans mu) with 3. change (chans sigma) with 3.
  by rewrite !bidx_3, !bidx_idem, (bidx_lt (height data)), (bidx_lt (width data)).
Qed.

Lemma normalization_fail data :
  chans data <> 3 -> chans data <> 1 -> normalization data = Raise ValueError.
Proof.
  intros H3 H1. unfold normalization, np.subtract.
  rewrite binary_op_column_fail; [done|].
  change (chans mu) with 3. rewrite broadcast_dim_3.
  apply Nat.eqb_neq in H3, H1. by rewrite H3, H1.
Qed.

Lemma normalized_ok data :
  chans data = 3 \/ chans data = 1 ->
  exists t,
    normalized data = Ok t /\
    dtype_of t = float32 /\
    chans t = 3 /\ height t = height data /\ width t = width data /\
    forall k i j, i < height data -> j < width data ->
      item t k i j =
      torch.as_tensor_scalar (promoted (dtype_of data)) float32
        (np.divide_scalar (promoted (dtype_of data))
           (np.subtract_scalar (promoted (dtype_of data))
              (item data (np.bidx (chans data) k) i j) (item mu k 0 0))
           (item sigma k 0 0)).
Proof.
  intros Hc. destruct (normalization_ok data Hc) as (r & Hr & Hd & Hk & Hh & Hw & Hi).
  unfold normalized. rewrite Hr. cbn [mbind result_bind bind mret result_ret].
  eexists. split; [reflexivity|].
  unfold torch.as_tensor, torch.as_tensor_scalar. rewrite Hd.
  destruct (decide (promoted (dtype_of data) = float32)); cbn [dtype_of chans height width item].
  - repeat split; try done. congruence.
  - repeat split; try done. intros. by rewrite Hi.
Qed.

Lemma normalized_fail data :
  chans data <> 3 -> chans data <> 1 -> normalized data = Raise ValueError.
Proof. intros H3 H1. unfold normalized. by rewrite normalization_fail. Qed.

(** ** The output size of [resize] *)

Lemma resize_shape `{Kernels} img :
  0 < height img -> 0 < width img ->
  exists t,
    F.resize img 256 = Ok t /\
    dtype_of t = dtype_of img /\ chans t = chans img /\
    (height t, width t) = F.resized (height img) (width img).
Proof.
  intros Hh Hw. unfold F.resize, F.compute_resized_output_size, F.resized.
  destruct (width img <=? height img) eqn:E.
  - destruct (width img =? 0) eqn:E0; [apply Nat.eqb_eq in E0; lia|].
    cbn [mbind result_bind bind].
    destruct (_ && _) eqn:Es; (eexists; split; [reflexivity|]); [|done].
    apply andb_true_iff in Es as [E1%Nat.eqb_eq E2%Nat.eqb_eq].
    repeat split. congruence.
  - destruct (height img =? 0) eqn:E0; [apply Nat.eqb_eq in E0; lia|].
    cbn [mbind result_bind bind].
    destruct (_ && _) eqn:Es; (eexists; split; [reflexivity|]); [|done].
    apply andb_true_iff in Es as [E1%Nat.eqb_eq E2%Nat.eqb_eq].
    repeat split. congruence.
Qed.

Lemma call_shape `{Kernels} data :
  chans data = 3 \/ chans data = 1 ->
  0 < height data -> 0 < width data ->
  exists t,
    ReplaceChannelsByBIOTEMPTransform_call data = Ok t /\
    dtype_of t = float32 /\ chans t = 3 /\
    (height t, width t) = F.resized (height data) (width data).
Proof.
  intros Hc Hh Hw.
  destruct (normalized_ok data Hc) as (t0 & Ht0 & Hd & Hk & Hh0 & Hw0 & _).
  destruct (resize_shape t0) as (t & Ht & Hd' & Hk' & Hs); [lia..|].
  exists t. unfold ReplaceChannelsByBIOTEMPTransform_call.
  rewrite Ht0. cbn [mbind result_bind bind].
  repeat split; congruence.
Qed.

Lemma call_fail `{Kernels} data :
  chans data <> 3 -> chans data <> 1 ->
  ReplaceChannelsByBIOTEMPTransform_call data = Raise ValueError.
Proof.
  intros H3 H1. unfold ReplaceChannelsByBIOTEMPTransform_call.
  by rewrite normalized_fail.
Qed.

Lemma resized_min h w :
  0 < h -> 0 < w -> Nat.min (fst (F.resized h w)) (snd (F.resized h w)) = 256.
Proof.
  intros Hh Hw. unfold F.resized. destruct (w <=? h) eqn:E; cbn [fst snd].
  - apply Nat.leb_le in E. apply Nat.min_r.
    apply Nat.div_le_lower_bound; lia.
  - apply Nat.leb_gt in E. apply Nat.min_l.
    apply Nat.div_le_lower_bound; lia.
Qed.

Lemma resized_square h : 0 < h -> F.resized h h = (256, 256).
Proof.
  intros Hh. unfold F.resized. rewrite Nat.leb_refl.
  by rewrite Nat.div_mul by lia.
Qed.

(** C1 (as amended): for every 3-channel input array with non-empty
    spatial dimensions, [ReplaceChannelsByBIOTEMPTransform.__call__]
    returns a tensor whose shorter spatial dimension is 256 and whose
    longer one is [256 * long / short] rounded down, the aspect ratio of
    the input being kept.  Both are 256 exactly when
    [256 * long < 257 * short], which is so for a square input and for
    one that is close enough to square. *)
Theorem call_output_size `{Kernels} data :
  chans data = 3 -> 0 < height data -> 0 < width data ->
  exists t,
    ReplaceChannelsByBIOTEMPTransform_call data = Ok t /\
    chans t = 3 /\
    (height t, width t) =
      (if width data <=? height data
       then (256 * height data / width data, 256)
       else (256, 256 * width data / height data)) /\
    Nat.min (height t) (width t) = 256 /\
    (height data = width data -> height t = 256 /\ width t = 256) /\
    (height t = 256 /\ width t = 256 <->
     256 * Nat.max (height data) (width data) <
     257 * Nat.min (height data) (width data)).
Proof.
  intros Hc Hh Hw.
  destruct (call_shape data) as (t & Ht & _ & Hk & Hs); [auto..|].
  exists t. split; [exact Ht|]. split; [exact Hk|]. split; [exact Hs|].
  split; [|split].
  - pose proof (resized_min _ _ Hh Hw) as Hm. rewrite <- Hs in Hm. exact Hm.
  - intros E. rewrite E, resized_square in Hs by lia.
    split; congruence.
  - unfold F.resized in Hs.
    destruct (width data <=? height data) eqn:E;
      apply pair_equal_spec in Hs as [-> ->].
    + apply Nat.leb_le in E. rewrite Nat.max_l, Nat.min_r by lia.
      pose proof (Nat.div_mod_eq (256 * height data) (width data)) as Hq.
      pose proof (Nat.mod_upper_bound (256 * height data) (width data)) as Hr.
      split; [intros [Hq' _]; rewrite Hq' in Hq; lia|].
      intros Hlt. split; [|done].
      apply Nat.le_antisymm.
      * apply Nat.lt_succ_r, Nat.Div0.div_lt_upper_bound; lia.
      * apply Nat.div_le_lower_bound; lia.
    + apply Nat.leb_gt in E. rewrite Nat.max_r, Nat.min_l by lia.
      pose proof (Nat.div_mod_eq (256 * width data) (height data)) as Hq.
      pose proof (Nat.mod_upper_bound (256 * width data) (height data)) as Hr.
      split; [intros [_ Hq']; rewrite Hq' in Hq; lia|].
      intros Hlt. split; [done|].
      apply Nat.le_antisymm.
      * apply Nat.lt_succ_r, Nat.Div0.div_lt_upper_bound; lia.
      * apply Nat.div_le_lower_bound; lia.
Qed.

Lemma call_output_size_witness :
  exists t,
    @ReplaceChannelsByBIOTEMPTransform_call sample_kernels
      (columns float64 3 20 40 0) = Ok t /\
    chans t = 3 /\
    (height t, width t) = (256, 512) /\
    Nat.min (height t) (width t) = 256 /\
    (20 = 40 -> height t = 256 /\ width t = 256) /\
    (height t = 256 /\ width t = 256 <-> 256 * 40 < 257 * 20).
Proof.
  apply (@call_output_size sample_kernels (columns float64 3 20 40 0));
    [reflexivity | cbn; lia | cbn; lia].
Defined.

(** C1 (as stated) fails: a 3-channel array of 20 rows and 40 columns is
    resized to 256 rows and 512 columns. *)
Lemma call_output_size_counterexample :
  ~ (forall (K : Kernels) (data t : dense),
       chans data = 3 ->
       ReplaceChannelsByBIOTEMPTransform_call data = Ok t ->
       height t = 256 /\ width t = 256).
Proof.
  intros Hall.
  destruct (@call_shape sample_kernels (columns float32 3 20 40 0))
    as (t & Ht & _ & _ & Hs); [by left | cbn; lia | cbn; lia |].
  destruct (Hall sample_kernels (columns float32 3 20 40 0) t eq_refl Ht)
    as [_ Hw].
  unfold F.resized in Hs. cbn in Hs. injection Hs as _ Hw'. lia.
Qed.

(** C2 (as amended): for an input array whose channel count is not 3,
    [ReplaceChannelsByBIOTEMPTransform.__call__] raises the [ValueError]
    of numpy's broadcasting, unless the array has exactly 1 channel: then
    (its spatial dimensions being non-empty) the call completes and
    returns 3 channels, each computed from the single input channel with
    the constants of its own index. *)
Theorem call_other_channel_count `{Kernels} data :
  chans data <> 3 ->
  (chans data <> 1 ->
     ReplaceChannelsByBIOTEMPTransform_call data = Raise ValueError) /\
  (chans data = 1 -> 0 < height data -> 0 < width data ->
     exists t0 t,
       normalized data = Ok t0 /\
       ReplaceChannelsByBIOTEMPTransform_call data = Ok t /\
       chans t0 = 3 /\ chans t = 3 /\
       forall k i j, i < height data -> j < width data ->
         item t0 k i j =
         torch.as_tensor_scalar (promoted (dtype_of data)) float32
           (np.divide_scalar (promoted (dtype_of data))
              (np.subtract_scalar (promoted (dtype_of data))
                 (item data 0 i j) (item mu k 0 0))
              (item sigma k 0 0))).
Proof.
  intros H3. split.
  - intros H1. by apply call_fail.
  - intros H1 Hh Hw.
    destruct (normalized_ok data (or_intror H1))
      as (t0 & Ht0 & _ & Hk0 & _ & _ & Hi).
    destruct (call_shape data (or_intror H1) Hh Hw) as (t & Ht & _ & Hk & _).
    exists t0, t. repeat (split; [assumption|]).
    intros k i j Hi' Hj'. rewrite Hi by assumption.
    rewrite H1. reflexivity.
Qed.

Lemma call_other_channel_count_witness :
  @ReplaceChannelsByBIOTEMPTransform_call sample_kernels
    (columns float32 2 20 20 0) = Raise ValueError.
Proof.
  apply (@call_other_channel_count sample_kernels (columns float32 2 20 20 0));
    cbn; lia.
Defined.

(** C2 (as stated) fails: on an array of 2 channels the call raises. *)
Lemma call_other_channel_count_counterexample :
  ~ (forall (K : Kernels) (data : dense),
       chans data <> 3 ->
       exists t, ReplaceChannelsByBIOTEMPTransform_call data = Ok t).
Proof.
  intros Hall.
  destruct (Hall sample_kernels (columns float32 2 20 20 0)) as [t Ht];
    [cbn; lia|].
  rewrite call_fail in Ht by (cbn; lia). discriminate.
Qed.

(** C3 (as amended): for every 3-channel input array of dtype float16,
    float32 or float64, [ReplaceChannelsByBIOTEMPTransform.__call__] hands
    to [resize] a float32 tensor of the shape of the input that holds, at
    every index, the IEEE-754 difference of the element and of mu[c]
    divided by sigma[c], with mu = (-12, 1, 1) and sigma = (40, 22, 51):
    subtraction and division are those of binary32 for a float16 or
    float32 input, and those of binary64, their quotient rounded to
    binary32, for a float64 input.  Nothing else is done to the values
    (the roundings written around [x] and around the difference are into
    the format these values have already). *)
Theorem normalized_values data :
  chans data = 3 -> is_floating (dtype_of data) = true ->
  exists t,
    normalized data = Ok t /\
    dtype_of t = float32 /\ shape t = shape data /\
    forall k i j x, k < 3 -> i < height data -> j < width data ->
      item data k i j = SFloat x ->
      item t k i j =
      SFloat
        (if decide (dtype_of data = float64) then
           ieee.round binary32
             (SFdiv 53 1024
                (ieee.round binary64
                   (SFsub 53 1024 (ieee.round binary64 x)
                      (binary_normalize 53 1024
                         (nth k [-12; 1; 1]%Z 0%Z) 0 false)))
                (binary_normalize 53 1024 (nth k [40; 22; 51]%Z 0%Z) 0 false))
         else
           SFdiv 24 128
             (ieee.round binary32
                (SFsub 24 128 (ieee.round binary32 x)
                   (binary_normalize 24 128 (nth k [-12; 1; 1]%Z 0%Z) 0 false)))
             (binary_normalize 24 128 (nth k [40; 22; 51]%Z 0%Z) 0 false)).
Proof.
  intros Hc Hf.
  destruct (normalized_ok data (or_introl Hc))
    as (t & Ht & Hd & Hk & Hh & Hw & Hi).
  exists t. split; [exact Ht|]. split; [exact Hd|]. split.
  { unfold shape. congruence. }
  intros k i j x Hk' Hi' Hj' Hx. rewrite Hi by assumption.
  rewrite Hc, bidx_3, Hx.
  destruct k as [|[|[|k]]]; [| | |lia];
    destruct (dtype_of data); try discriminate Hf; reflexivity.
Qed.

Lemma normalized_values_witness :
  exists t32 t64,
    normalized (columns float32 3 20 20 0) = Ok t32 /\
    normalized (columns float64 3 20 20 0) = Ok t64 /\
    dtype_of t32 = float32 /\ dtype_of t64 = float32 /\
    shape t32 = (3, 20, 20) /\ shape t64 = (3, 20, 20) /\
    item t32 0 0 8 = SFloat (S754_finite false 8388608 (-24)) /\
    item t64 0 0 8 = SFloat (S754_finite false 8388608 (-24)) /\
    item t32 1 0 3 = SFloat (S754_finite false 12201612 (-27)) /\
    item t64 1 0 3 = SFloat (S754_finite false 12201612 (-27)) /\
    item t32 2 0 0 = SFloat (S754_finite true 10526881 (-29)) /\
    item t64 2 0 0 = SFloat (S754_finite true 10526881 (-29)).
Proof.
  destruct (normalized_values (columns float32 3 20 20 0) eq_refl eq_refl)
    as (t32 & Ht32 & Hd32 & Hs32 & Hi32).
  destruct (normalized_values (columns float64 3 20 20 0) eq_refl eq_refl)
    as (t64 & Ht64 & Hd64 & Hs64 & Hi64).
  exists t32, t64.
  split; [exact Ht32|]. split; [exact Ht64|].
  split; [exact Hd32|]. split; [exact Hd64|].
  split; [exact Hs32|]. split; [exact Hs64|].
  split; [erewrite Hi32 by (cbn; lia || reflexivity); vm_compute; reflexivity|].
  split; [erewrite Hi64 by (cbn; lia || reflexivity); vm_compute; reflexivity|].
  split; [erewrite Hi32 by (cbn; lia || reflexivity); vm_compute; reflexivity|].
  split; [erewrite Hi64 by (cbn; lia || reflexivity); vm_compute; reflexivity|].
  split; [erewrite Hi32 by (cbn; lia || reflexivity); vm_compute; reflexivity|].
  erewrite Hi64 by (cbn; lia || reflexivity); vm_compute; reflexivity.
Defined.

(** C3 (as stated) fails: on a 3-channel array of the floating-point
    dtype [numpy.longdouble], [torch.as_tensor] raises a [TypeError]. *)
Lemma normalized_values_counterexample :
  ~ (forall x : array,
       array_chans x = 3 -> array_is_floating x = true ->
       exists t, normalized_any x = Ok t).
Proof.
  intros Hall.
  destruct (Hall (LongDouble 3 1 1 (fun _ _ _ => S754_zero false)))
    as [t Ht]; [reflexivity..|].
  discriminate Ht.
Qed.

(** ** The pipelines *)


(** [Normalize] on a float32 tensor of as many channels as it has
    constants, none of the deviations being zero. *)
Lemma normalize_ok t mean std :
  dtype_of t = float32 ->
  length mean = chans t -> length std = chans t ->
  existsb (fun k => F.is_zero (item (np.asarray_column std float32) k 0 0))
    (seq 0 (length std)) = false ->
  exists r,
    F.normalize t mean std = Ok r /\
    dtype_of r = float32 /\ shape r = shape t /\
    forall k i j, k < chans t -> i < height t -> j < width t ->
      item r k i j =
      np.divide_scalar float32
        (np.subtract_scalar float32 (item t k i j)
           (astype float32 (SFloat (ieee.of_literal (nth k mean 0%Q)))))
        (astype float32 (SFloat (ieee.of_literal (nth k std 0%Q)))).
Proof.
  intros Hd Hm Hs Hz. unfold F.normalize. rewrite Hd. cbn [is_floating float_format negb].
  rewrite Hz. unfold F.inplace.
  assert (Hb : forall n, np.broadcast_dim n n = Some n).
  { intros n. unfold np.broadcast_dim. by rewrite Nat.eqb_refl. }
  rewrite (binary_op_column _ _ _ _ (chans t))
    by (try reflexivity; cbn [chans np.asarray_column]; rewrite Hm; apply Hb).
  rewrite decide_True by reflexivity. cbn [mbind result_bind bind].
  rewrite (binary_op_column _ _ _ _ (chans t))
    by (try reflexivity; cbn [chans np.asarray_column]; rewrite Hs; apply Hb).
  rewrite decide_True by reflexivity.
  eexists. split; [reflexivity|]. repeat split.
  intros k i j Hk Hi Hj. cbn [item chans height width np.asarray_column].
  rewrite Hm, Hs, !bidx_idem.
  by rewrite (bidx_lt (chans t)), (bidx_lt (height t)), (bidx_lt (width t)).
Qed.

Section Pipelines.
Context `{Kernels}.

(** The test pipeline, step by step: it never consults the generator. *)
Lemma test_transform_run v g :
  Compose_call test_transform v g =
  match v with
  | NdArray data =>
      t ← ReplaceChannelsByBIOTEMPTransform_call data;
      r ← F.normalize (F.center_crop t 224 224)
            [0.485; 0.456; 0.406]%Q [0.229; 0.224; 0.225]%Q;
      Ok (Tensor r, g)
  | Tensor _ => Raise TypeError
  end.
Proof.
  destruct v as [data|t]; [|done].
  cbn [test_transform Compose_call apply on_tensor].
  destruct (ReplaceChannelsByBIOTEMPTransform_call data) as [t|e]; [|done].
  cbn [mbind result_bind bind mret result_ret on_tensor].
  by destruct (F.normalize _ _ _).
Qed.

(** Two runs of the training pipeline on one array of 3 channels, 256
    rows and 256 columns that holds its column index: both generators
    draw the angle 0 and the crop offsets (8, 8), and only the second
    flips the image horizontally.  The two results differ at index
    (0, 0, 0), read from columns 8 and 231 of the input. *)
Lemma train_differs :
  (forall angle h w i j,
      (angle == 0)%Q -> i < h -> j < w ->
      rotate_source angle h w i j = Some (i, j)) ->
  exists v1 v2,
    returned (Compose_call train_transform
                (NdArray (columns float32 3 256 256 0))
                (constant_but 8388608 3 8388608)) = Ok v1 /\
    returned (Compose_call train_transform
                (NdArray (columns float32 3 256 256 0))
                (constant_but 8388608 3 0)) = Ok v2 /\
    v1 <> v2.
Proof.
  intros rotate_zero.
  eexists _, _. split; [|split].
  - lazy -[interpolate rotate_source ieee.sub ieee.div ieee.round
           ieee.of_literal ieee.of_Z astype np.subtract_scalar
           np.divide_scalar].
    reflexivity.
  - lazy -[interpolate rotate_source ieee.sub ieee.div ieee.round
           ieee.of_literal ieee.of_Z astype np.subtract_scalar
           np.divide_scalar].
    reflexivity.
  - intros E.
    apply (f_equal (fun v => match v with
                             | Tensor t | NdArray t => item t 0 0 0
                             end)) in E.
    cbn [item] in E.
    rewrite !rotate_zero in E by (reflexivity || lia).
    vm_compute in E. discriminate.
Qed.

(** C4: the evaluation pipeline [test_transform] is deterministic: on
    every input, whatever the state of the random generator, it returns
    the same result and leaves the generator as it found it; the
    training pipeline [train_transform] is stochastic: on some input,
    two states of the generator yield two different tensors.  (The
    rotation kernel is taken to leave an image unchanged at angle 0.) *)
Theorem test_deterministic_train_stochastic :
  (forall angle h w i j,
      (angle == 0)%Q -> i < h -> j < w ->
      rotate_source angle h w i j = Some (i, j)) ->
  (forall v g1 g2,
      returned (Compose_call test_transform v g1) =
      returned (Compose_call test_transform v g2)) /\
  (forall v g r g',
      Compose_call test_transform v g = Ok (r, g') -> g' = g) /\
  (exists x g1 g2 v1 v2,
      returned (Compose_call train_transform x g1) = Ok v1 /\
      returned (Compose_call train_transform x g2) = Ok v2 /\
      v1 <> v2).
Proof.
  intros rotate_zero. split; [|split].
  - intros v g1 g2. rewrite !test_transform_run.
    destruct v as [data|t]; [|done].
    destruct (ReplaceChannelsByBIOTEMPTransform_call data) as [t|e]; [|done].
    cbn [mbind result_bind bind].
    by destruct (F.normalize _ _ _).
  - intros v g r g'. rewrite test_transform_run.
    destruct v as [data|t]; [|done].
    destruct (ReplaceChannelsByBIOTEMPTransform_call data) as [t|e]; [|done].
    cbn [mbind result_bind bind].
    destruct (F.normalize _ _ _); cbn [mbind result_bind bind]; congruence.
  - destruct (train_differs rotate_zero) as (v1 & v2 & H1 & H2 & Hne).
    exists (NdArray (columns float32 3 256 256 0)),
      (constant_but 8388608 3 8388608), (constant_but 8388608 3 0), v1, v2.
    split; [exact H1|]. split; [exact H2|exact Hne].
Qed.


End Pipelines.

Lemma test_deterministic_train_stochastic_witness :
  (forall v g1 g2,
      returned (@Compose_call sample_kernels test_transform v g1) =
      returned (@Compose_call sample_kernels test_transform v g2)) /\
  (forall v g r g',
      @Compose_call sample_kernels test_transform v g = Ok (r, g') -> g' = g) /\
  (exists x g1 g2 v1 v2,
      returned (@Compose_call sample_kernels train_transform x g1) = Ok v1 /\
      returned (@Compose_call sample_kernels train_transform x g2) = Ok v2 /\
      v1 <> v2).
Proof.
  apply (@test_deterministic_train_stochastic sample_kernels).
  intros angle h w i j _ _ _. reflexivity.
Defined.


(** ** The normalization and its inverse *)











(** ** [__call__] on the store: dtype of the result, fate of the input *)

Lemma fresh_lookup (h : gmap nat dense) : h !! fresh (dom h) = None.
Proof. apply not_elem_of_dom, is_fresh. Qed.

Lemma fresh_ne (h : gmap nat dense) b v : h !! b = Some v -> b <> fresh (dom h).
Proof. intros Hb ->. by rewrite fresh_lookup in Hb. Qed.

Lemma alloc_keeps (h : gmap nat dense) b v w :
  h !! b = Some v -> <[fresh (dom h) := w]> h !! b = Some v.
Proof.
  intros Hb. rewrite lookup_insert_ne; [done|].
  intros E. by apply (fresh_ne h b v).
Qed.

Lemma alloc_subseteq (h : gmap nat dense) w : h ⊆ <[fresh (dom h) := w]> h.
Proof. apply insert_subseteq, fresh_lookup. Qed.

Lemma read_run r h v :
  h !! py.buffer r = Some v -> py.read r h = Some (Ok v, h).
Proof. intros Hr. unfold py.read. by rewrite Hr. Qed.

Lemma binary_run op x y h vx vy :
  h !! py.buffer x = Some vx -> h !! py.buffer y = Some vy ->
  py.binary op x y h =
  match op vx vy with
  | Ok v => Some (Ok (py.NdArrayRef (fresh (dom h))), <[fresh (dom h) := v]> h)
  | Raise e => Some (Raise e, h)
  end.
Proof.
  intros Hx Hy. unfold py.binary, py.bind.
  rewrite (read_run x h vx Hx), (read_run y h vy Hy).
  unfold py.lift. by destruct (op vx vy).
Qed.

Lemma as_tensor_run x d h vx :
  h !! py.buffer x = Some vx ->
  exists b h',
    py.as_tensor x d h = Some (Ok (py.TensorRef b), h') /\
    h ⊆ h' /\ h' !! b = Some (torch.as_tensor vx d) /\
    (b = py.buffer x \/ h !! b = None).
Proof.
  intros Hx. unfold py.as_tensor, py.bind. rewrite (read_run x h vx Hx).
  unfold torch.as_tensor.
  destruct (decide (dtype_of vx = d)) as [E|E].
  - exists (py.buffer x), h. by auto.
  - eexists _, _. split; [reflexivity|].
    split; [apply alloc_subseteq|]. split; [apply lookup_insert_eq|].
    right. apply fresh_lookup.
Qed.

(** [resize] returns an image of the shape of its argument only when it
    returns the argument. *)
Lemma resize_same `{Kernels} img size v :
  F.resize img size = Ok v -> shape v = shape img -> v = img.
Proof.
  unfold F.resize.
  destruct (F.compute_resized_output_size _ _ _) as [[new_h new_w]|e]; [|done].
  cbn [mbind result_bind bind].
  destruct (_ && _) eqn:E; [congruence|].
  intros [= <-]. unfold shape. cbn [chans height width]. intros [= -> ->].
  by rewrite !Nat.eqb_refl in E.
Qed.

Lemma resize_run `{Kernels} b size h vx :
  h !! b = Some vx ->
  match F.resize vx size with
  | Ok v =>
      exists b' h',
        py.resize (py.TensorRef b) size h = Some (Ok (py.TensorRef b'), h') /\
        h ⊆ h' /\ h' !! b' = Some v /\ (b' = b \/ h !! b' = None)
  | Raise e => py.resize (py.TensorRef b) size h = Some (Raise e, h)
  end.
Proof.
  intros Hx. unfold py.resize, py.bind.
  rewrite (read_run (py.TensorRef b) h vx Hx). unfold py.lift.
  destruct (F.resize vx size) as [v|e] eqn:Ev; [|done].
  destruct (decide (shape v = shape vx)) as [E|E].
  - exists b, h. rewrite (resize_same vx size v Ev E). by auto.
  - eexists _, _. split; [reflexivity|].
    split; [apply alloc_subseteq|]. split; [apply lookup_insert_eq|].
    right. apply fresh_lookup.
Qed.

Lemma resize_dtype `{Kernels} img size v :
  F.resize img size = Ok v -> dtype_of v = dtype_of img.
Proof.
  unfold F.resize.
  destruct (F.compute_resized_output_size _ _ _) as [[new_h new_w]|e]; [|done].
  cbn [mbind result_bind bind]. by destruct (_ && _); intros [= <-].
Qed.

Lemma as_tensor_dtype a d : dtype_of (torch.as_tensor a d) = d.
Proof. unfold torch.as_tensor. by destruct (decide _). Qed.

(** The two constant arrays are allocated first. *)
Lemma run_constants `{Kernels} data h :
  py.ReplaceChannelsByBIOTEMPTransform_run data h =
  let h1 := <[fresh (dom h) := mu]> h in
  let h2 := <[fresh (dom h1) := sigma]> h1 in
  py.bind (py.binary np.subtract data (py.NdArrayRef (fresh (dom h))))
    (fun data =>
       py.bind (py.binary np.divide data (py.NdArrayRef (fresh (dom h1))))
         (fun data =>
            py.bind (py.as_tensor data float32)
              (fun data => py.resize data 256))) h2.
Proof. reflexivity. Qed.

(** C9: run on a store that holds the input array [x] in buffer [b],
    [__call__] ends (with a value or an exception) in a store that extends
    the one it started from, so that [b] and every other buffer that was
    there hold what they held: the input is not mutated.  When it returns,
    it returns a tensor of dtype float32 whatever the dtype of [x], the
    one the pure reading of the five lines computes, in a buffer that did
    not exist before, hence not the one of the input. *)
Theorem call_float32_input_kept `{Kernels} (h : gmap nat dense) b x :
  h !! b = Some x ->
  exists r h',
    py.ReplaceChannelsByBIOTEMPTransform_run (py.NdArrayRef b) h = Some (r, h') /\
    h ⊆ h' /\ h' !! b = Some x /\
    match r with
    | Ok ret =>
        exists t,
          ReplaceChannelsByBIOTEMPTransform_call x = Ok t /\
          ret = py.TensorRef (py.buffer ret) /\
          h' !! py.buffer ret = Some t /\
          dtype_of t = float32 /\
          h !! py.buffer ret = None
    | Raise e => ReplaceChannelsByBIOTEMPTransform_call x = Raise e
    end.
Proof.
  intros Hb. rewrite run_constants.
  set (b1 := fresh (dom h)). set (h1 := <[b1 := mu]> h).
  set (b2 := fresh (dom h1)). set (h2 := <[b2 := sigma]> h1). cbn zeta.
  assert (H01 : h ⊆ h1) by apply alloc_subseteq.
  assert (H12 : h1 ⊆ h2) by apply alloc_subseteq.
  assert (H02 : h ⊆ h2) by (by trans h1).
  assert (Hmu : h2 !! b1 = Some mu).
  { apply (lookup_weaken h1); [apply lookup_insert_eq|done]. }
  assert (Hsigma : h2 !! b2 = Some sigma) by apply lookup_insert_eq.
  unfold ReplaceChannelsByBIOTEMPTransform_call, normalized, normalization.
  unfold py.bind at 1.
  rewrite (binary_run _ _ _ h2 x mu) by (done || by apply (lookup_weaken h)).
  destruct (np.subtract x mu) as [d1|e];
    [|exists (Raise e), h2; by eauto using lookup_weaken].
  set (b3 := fresh (dom h2)). set (h3 := <[b3 := d1]> h2).
  assert (H23 : h2 ⊆ h3) by apply alloc_subseteq.
  assert (H03 : h ⊆ h3) by (by trans h2).
  unfold py.bind at 1.
  rewrite (binary_run _ _ _ h3 d1 sigma)
    by (apply lookup_insert_eq || by apply (lookup_weaken h2)).
  cbn [mbind result_bind bind].
  destruct (np.divide d1 sigma) as [d2|e];
    [|exists (Raise e), h3; by eauto using lookup_weaken].
  set (b4 := fresh (dom h3)). set (h4 := <[b4 := d2]> h3).
  assert (H34 : h3 ⊆ h4) by apply alloc_subseteq.
  assert (H04 : h ⊆ h4) by (by trans h3).
  assert (Hb4 : h !! b4 = None).
  { eapply lookup_weaken_None; [apply fresh_lookup|done]. }
  destruct (as_tensor_run (py.NdArrayRef b4) float32 h4 d2)
    as (b5 & h5 & Hrun & H45 & Hb5 & Hor); [apply lookup_insert_eq|].
  unfold py.bind. rewrite Hrun.
  assert (H05 : h ⊆ h5) by (by trans h4).
  assert (Hb5' : h !! b5 = None).
  { destruct Hor as [->|Hn]; [done|]. by eapply lookup_weaken_None. }
  cbn [mbind result_bind bind mret result_ret].
  pose proof (resize_run b5 256 h5 _ Hb5) as Hres.
  destruct (F.resize (torch.as_tensor d2 float32) 256) as [t|e] eqn:Et.
  - destruct Hres as (b6 & h6 & -> & H56 & Hb6 & Hor6).
    exists (Ok (py.TensorRef b6)), h6.
    assert (H06 : h ⊆ h6) by (by trans h5).
    split; [done|]. split; [done|]. split; [by apply (lookup_weaken h)|].
    exists t. split; [done|]. split; [done|]. split; [done|].
    split; [by rewrite (resize_dtype _ _ _ Et), as_tensor_dtype|].
    cbn [py.buffer]. destruct Hor6 as [->|Hn]; [done|].
    by eapply lookup_weaken_None.
  - rewrite Hres. exists (Raise e), h5.
    split; [done|]. split; [done|]. split; [by apply (lookup_weaken h)|done].
Qed.

Lemma call_float32_input_kept_witness :
  exists r h',
    @py.ReplaceChannelsByBIOTEMPTransform_run sample_kernels (py.NdArrayRef 0)
      {[ 0 := columns int16 3 20 20 0 ]} = Some (r, h') /\
    {[ 0 := columns int16 3 20 20 0 ]} ⊆ h' /\
    h' !! 0 = Some (columns int16 3 20 20 0) /\
    match r with
    | Ok ret =>
        exists t,
          @ReplaceChannelsByBIOTEMPTransform_call sample_kernels
            (columns int16 3 20 20 0) = Ok t /\
          ret = py.TensorRef (py.buffer ret) /\
          h' !! py.buffer ret = Some t /\
          dtype_of t = float32 /\
          ({[ 0 := columns int16 3 20 20 0 ]} : gmap nat dense) !! py.buffer ret = None
    | Raise e =>
        @ReplaceChannelsByBIOTEMPTransform_call sample_kernels
          (columns int16 3 20 20 0) = Raise e
    end.
Proof.
  apply (@call_float32_input_kept sample_kernels). reflexivity.
Defined.

(** ** [get_dataset] *)

(** Unless [kwargs] repeats a keyword, [get_dataset] returns the dataset
    it constructs. *)
Lemma get_dataset_ok self split transform kwargs :
  repeats_keyword kwargs = false ->
  get_dataset self split transform kwargs =
  Ok {| cls := if minigeolifeclef self then MiniGeoLifeCLEF2022Dataset
               else GeoLifeCLEF2022Dataset;
        args := {| arg_root := dataset_path self;
                   arg_split := split;
                   patch_data := [];
                   use_rasters := true;
                   patch_extractor :=
                     {| root_path := [dataset_path self; "rasters"%string];
                        size := 20;
                        rasters :=
                          [ {| raster_name := "bio_1"; nan := -12.0 |};
                            {| raster_name := "bio_2"; nan := 1.0 |};
                            {| raster_name := "bio_7"; nan := 1.0 |} ] |};
                   transform_arg := transform;
                   extra := kwargs |} |}.
Proof. intros Hk. unfold get_dataset. by rewrite Hk. Qed.

(** C5: for every split and transform, [get_dataset] constructs a
    [MiniGeoLifeCLEF2022Dataset] when the flag [minigeolifeclef] is set and
    a [GeoLifeCLEF2022Dataset] when it is not, and the arguments of the
    construction do not depend on the flag: a data module on the same
    dataset path, whatever its flag, passes the same ones.  (The keyword
    arguments of the call are taken not to repeat a keyword that
    [get_dataset] passes itself.) *)
Theorem get_dataset_class self split transform kwargs :
  repeats_keyword kwargs = false ->
  exists d,
    get_dataset self split transform kwargs = Ok d /\
    cls d = (if minigeolifeclef self then MiniGeoLifeCLEF2022Dataset
             else GeoLifeCLEF2022Dataset) /\
    arg_root (args d) = dataset_path self /\
    arg_split (args d) = split /\
    transform_arg (args d) = transform /\
    forall self',
      dataset_path self' = dataset_path self ->
      exists d',
        get_dataset self' split transform kwargs = Ok d' /\
        cls d' = (if minigeolifeclef self' then MiniGeoLifeCLEF2022Dataset
                  else GeoLifeCLEF2022Dataset) /\
        args d' = args d.
Proof.
  intros Hk. eexists. split; [by apply get_dataset_ok|].
  cbn [cls args arg_root arg_split transform_arg].
  repeat (split; [reflexivity|]).
  intros self' Hp. eexists. split; [by apply get_dataset_ok|].
  cbn [cls args]. by rewrite Hp.
Qed.

(** C6: the patch extractor [get_dataset] builds is rooted at
    <dataset_path>/rasters, with patches of size 20, and holds exactly the
    three rasters bio_1 with fill value -12.0, bio_2 with 1.0 and bio_7
    with 1.0, in this order; it is the one the dataset is constructed with,
    together with the transform that was given.  (Same proviso on the
    keyword arguments.) *)
Theorem get_dataset_patch_extractor self split transform kwargs :
  repeats_keyword kwargs = false ->
  exists d,
    get_dataset self split transform kwargs = Ok d /\
    root_path (patch_extractor (args d)) =
      joinpath (Path (dataset_path self)) "rasters" /\
    size (patch_extractor (args d)) = 20 /\
    rasters (patch_extractor (args d)) =
      [ {| raster_name := "bio_1"; nan := -12.0 |};
        {| raster_name := "bio_2"; nan := 1.0 |};
        {| raster_name := "bio_7"; nan := 1.0 |} ] /\
    transform_arg (args d) = transform.
Proof.
  intros Hk. eexists. split; [by apply get_dataset_ok|]. done.
Qed.


Lemma get_dataset_class_witness :
  exists d,
    get_dataset (GeoLifeCLEF2022DataModule_init "data" (Some true) None None None)
      "train" train_transform {[ "download"%string := PyBool true ]} = Ok d /\
    cls d = MiniGeoLifeCLEF2022Dataset /\
    arg_root (args d) = "data"%string /\
    arg_split (args d) = "train"%string /\
    transform_arg (args d) = train_transform /\
    forall self',
      dataset_path self' = "data"%string ->
      exists d',
        get_dataset self' "train" train_transform
          {[ "download"%string := PyBool true ]} = Ok d' /\
        cls d' = (if minigeolifeclef self' then MiniGeoLifeCLEF2022Dataset
                  else GeoLifeCLEF2022Dataset) /\
        args d' = args d.
Proof.
  apply (get_dataset_class
           (GeoLifeCLEF2022DataModule_init "data" (Some true) None None None)).
  vm_compute. reflexivity.
Defined.

Lemma get_dataset_patch_extractor_witness :
  exists d,
    get_dataset (GeoLifeCLEF2022DataModule_init "data" None None None None)
      "val" test_transform ∅ = Ok d /\
    root_path (patch_extractor (args d)) = ["data"; "rasters"]%string /\
    size (patch_extractor (args d)) = 20 /\
    rasters (patch_extractor (args d)) =
      [ {| raster_name := "bio_1"; nan := -12.0 |};
        {| raster_name := "bio_2"; nan := 1.0 |};
        {| raster_name := "bio_7"; nan := 1.0 |} ] /\
    transform_arg (args d) = test_transform.
Proof.
  apply (get_dataset_patch_extractor
           (GeoLifeCLEF2022DataModule_init "data" None None None None)).
  vm_compute. reflexivity.
Defined.


(** * Further properties *)

(** ** Outcomes of [__call__] *)

Lemma compute_resized_output_size_empty h w size :
  h = 0 \/ w = 0 ->
  F.compute_resized_output_size h w size = Raise ZeroDivisionError.
Proof.
  intros Hz. unfold F.compute_resized_output_size.
  destruct (w <=? h) eqn:E.
  - apply Nat.leb_le in E. assert (w = 0) as -> by lia. done.
  - apply Nat.leb_gt in E. assert (h = 0) as -> by lia. done.
Qed.

Lemma call_empty `{Kernels} data :
  chans data = 3 \/ chans data = 1 ->
  height data = 0 \/ width data = 0 ->
  ReplaceChannelsByBIOTEMPTransform_call data = Raise ZeroDivisionError.
Proof.
  intros Hc Hz.
  destruct (normalized_ok data Hc) as (t0 & Ht0 & _ & _ & Hh & Hw & _).
  unfold ReplaceChannelsByBIOTEMPTransform_call. rewrite Ht0.
  cbn [mbind result_bind bind]. unfold F.resize.
  rewrite compute_resized_output_size_empty; [done|]. by rewrite Hh, Hw.
Qed.

Lemma call_ok_inv `{Kernels} data r :
  ReplaceChannelsByBIOTEMPTransform_call data = Ok r ->
  (chans data = 3 \/ chans data = 1) /\ 0 < height data /\ 0 < width data.
Proof.
  intros Hr.
  destruct (decide (chans data = 3)) as [H3|H3];
    [|destruct (decide (chans data = 1)) as [H1|H1]].
  3: { by rewrite call_fail in Hr. }
  all: assert (Hc : chans data = 3 \/ chans data = 1) by auto.
  all: destruct (decide (height data = 0)) as [Hh|Hh];
    [by rewrite call_empty in Hr by auto|].
  all: destruct (decide (width data = 0)) as [Hw|Hw];
    [by rewrite call_empty in Hr by auto|].
  all: split; [done|lia].
Qed.

(** An array of 3 channels (or of 1) with an empty spatial dimension:
    the normalization and the conversion to a tensor go through, on an
    empty tensor, and [resize] raises a [ZeroDivisionError] when it
    computes the length of the longer edge. *)
Theorem call_empty_input `{Kernels} data :
  chans data = 3 \/ chans data = 1 ->
  height data = 0 \/ width data = 0 ->
  (exists t,
     normalized data = Ok t /\
     shape t = (3, height data, width data) /\
     F.resize t 256 = Raise ZeroDivisionError) /\
  ReplaceChannelsByBIOTEMPTransform_call data = Raise ZeroDivisionError.
Proof.
  intros Hc Hz. split; [|by apply call_empty].
  destruct (normalized_ok data Hc) as (t & Ht & _ & Hk & Hh & Hw & _).
  exists t. split; [exact Ht|]. split; [unfold shape; congruence|].
  unfold F.resize.
  rewrite compute_resized_output_size_empty; [done|]. by rewrite Hh, Hw.
Qed.

Lemma call_empty_input_witness :
  (exists t,
     normalized (columns float32 3 0 5 0) = Ok t /\
     shape t = (3, 0, 5) /\
     @F.resize sample_kernels t 256 = Raise ZeroDivisionError) /\
  @ReplaceChannelsByBIOTEMPTransform_call sample_kernels
    (columns float32 3 0 5 0) = Raise ZeroDivisionError.
Proof.
  apply (@call_empty_input sample_kernels (columns float32 3 0 5 0));
    by left.
Defined.

(** ** [resize] at the output size *)

Lemma resize_at_size `{Kernels} img :
  Nat.min (height img) (width img) = 256 -> F.resize img 256 = Ok img.
Proof.
  intros Hm. unfold F.resize, F.compute_resized_output_size.
  destruct (width img <=? height img) eqn:E.
  - apply Nat.leb_le in E. rewrite Nat.min_r in Hm by done. rewrite Hm.
    cbn [Nat.eqb mbind result_bind bind].
    rewrite (Nat.mul_comm 256), Nat.div_mul by done.
    by rewrite Nat.eqb_refl.
  - apply Nat.leb_gt in E. rewrite Nat.min_l in Hm by lia. rewrite Hm.
    cbn [Nat.eqb mbind result_bind bind].
    rewrite (Nat.mul_comm 256), Nat.div_mul by done.
    by rewrite Nat.eqb_refl.
Qed.

(** An array whose shorter spatial dimension is 256 already is not
    resampled: [__call__] returns the normalized values as they are. *)
Theorem call_no_resampling `{Kernels} data :
  chans data = 3 \/ chans data = 1 ->
  Nat.min (height data) (width data) = 256 ->
  exists t,
    normalized data = Ok t /\
    ReplaceChannelsByBIOTEMPTransform_call data = Ok t /\
    shape t = (3, height data, width data).
Proof.
  intros Hc Hm.
  destruct (normalized_ok data Hc) as (t & Ht & _ & Hk & Hh & Hw & _).
  exists t. split; [done|]. unfold ReplaceChannelsByBIOTEMPTransform_call.
  rewrite Ht. cbn [mbind result_bind bind].
  split; [apply resize_at_size; by rewrite Hh, Hw|].
  unfold shape. by rewrite Hk, Hh, Hw.
Qed.

Lemma call_no_resampling_witness :
  exists t,
    normalized (columns float32 3 256 300 0) = Ok t /\
    @ReplaceChannelsByBIOTEMPTransform_call sample_kernels
      (columns float32 3 256 300 0) = Ok t /\
    shape t = (3, 256, 300).
Proof.
  apply (@call_no_resampling sample_kernels (columns float32 3 256 300 0));
    [by left | reflexivity].
Defined.

(** ** The pipelines after their first step *)

Lemma call_at_least_256 `{Kernels} data r :
  ReplaceChannelsByBIOTEMPTransform_call data = Ok r ->
  dtype_of r = float32 /\ chans r = 3 /\ 256 <= height r /\ 256 <= width r.
Proof.
  intros Hr. destruct (call_ok_inv data r Hr) as (Hc & Hh & Hw).
  destruct (call_shape data Hc Hh Hw) as (t & Ht & Hd & Hk & Hs).
  rewrite Hr in Ht. injection Ht as <-.
  pose proof (resized_min _ _ Hh Hw) as Hm. rewrite <- Hs in Hm.
  cbn [fst snd] in Hm. split; [done|]. split; [done|]. lia.
Qed.

(** The first step of a pipeline that begins with
    [ReplaceChannelsByBIOTEMPTransform]. *)
Lemma pipeline_first_step `{Kernels} ts data g :
  Compose_call (ReplaceChannelsByBIOTEMPTransform :: ts) (NdArray data) g =
  r ← ReplaceChannelsByBIOTEMPTransform_call data;
  Compose_call ts (Tensor r) g.
Proof.
  cbn [Compose_call apply].
  by destruct (ReplaceChannelsByBIOTEMPTransform_call data).
Qed.

Lemma round_half_le n : F.round_half n <= n.
Proof.
  unfold F.round_half. destruct n as [|[|n]]; [cbn; lia..|].
  assert (S (S n) / 2 < S (S n)) by (apply Nat.div_lt; lia).
  destruct (Nat.even _); [lia|]. destruct (Nat.even _); lia.
Qed.

Lemma center_crop_inside img ch cw :
  ch <= height img -> cw <= width img ->
  F.center_crop img ch cw =
  F.crop img (F.round_half (height img - ch)) (F.round_half (width img - cw))
    ch cw.
Proof.
  intros Hh Hw. unfold F.center_crop. cbn zeta.
  apply Nat.ltb_ge in Hh, Hw. by rewrite Hh, Hw.
Qed.

Lemma normalize_imagenet t :
  dtype_of t = float32 -> chans t = 3 ->
  exists r,
    F.normalize t [0.485; 0.456; 0.406]%Q [0.229; 0.224; 0.225]%Q = Ok r /\
    dtype_of r = float32 /\ shape r = shape t /\
    forall k i j, k < 3 -> i < height t -> j < width t ->
      item r k i j =
      np.divide_scalar float32
        (np.subtract_scalar float32 (item t k i j)
           (astype float32
              (SFloat (ieee.of_literal (nth k [0.485; 0.456; 0.406]%Q 0%Q)))))
        (astype float32
           (SFloat (ieee.of_literal (nth k [0.229; 0.224; 0.225]%Q 0%Q)))).
Proof.
  intros Hd Hc.
  destruct (normalize_ok t [0.485; 0.456; 0.406]%Q [0.229; 0.224; 0.225]%Q)
    as (r & Hr & Hd' & Hs & Hi);
    [done | by rewrite Hc | by rewrite Hc | by vm_compute |].
  exists r. repeat (split; [done|]). intros k i j Hk. apply Hi. by rewrite Hc.
Qed.

(** ** What the two pipelines return *)

Lemma mod_to_nat_lt x m : 0 < m -> N.to_nat (x mod N.of_nat m) < m.
Proof.
  intros Hm. pose proof (N.mod_lt x (N.of_nat m)). lia.
Qed.

(** The steps of the evaluation pipeline after the first, on a float32
    tensor of 3 channels that is at least 224 by 224. *)
Lemma test_transform_tail `{Kernels} r g :
  dtype_of r = float32 -> chans r = 3 ->
  224 <= height r -> 224 <= width r ->
  exists t,
    Compose_call (tail test_transform) (Tensor r) g = Ok (Tensor t, g) /\
    dtype_of t = float32 /\ shape t = (3, 224, 224) /\
    forall k i j, k < 3 -> i < 224 -> j < 224 ->
      let top := F.round_half (height r - 224) in
      let left := F.round_half (width r - 224) in
      top + i < height r /\ left + j < width r /\
      item t k i j =
      np.divide_scalar float32
        (np.subtract_scalar float32 (item r k (top + i) (left + j))
           (astype float32
              (SFloat (ieee.of_literal (nth k [0.485; 0.456; 0.406]%Q 0%Q)))))
        (astype float32
           (SFloat (ieee.of_literal (nth k [0.229; 0.224; 0.225]%Q 0%Q)))).
Proof.
  intros Hd Hk Hh' Hw'.
  cbn [tail test_transform Compose_call apply on_tensor
       mbind result_bind bind mret result_ret].
  rewrite center_crop_inside by lia.
  set (c := F.crop r _ _ 224 224).
  destruct (normalize_imagenet c) as (t & Ht & Hdt & Hst & Hi); [done..|].
  rewrite Ht. cbn [mbind result_bind bind mret result_ret].
  exists t. split; [done|]. split; [done|].
  split; [by rewrite Hst; unfold shape; cbn; rewrite Hk|].
  intros k i j Hk' Hi' Hj'. cbn zeta.
  pose proof (round_half_le (height r - 224)).
  pose proof (round_half_le (width r - 224)).
  split; [lia|]. split; [lia|]. by rewrite Hi.
Qed.

(** The steps of the training pipeline after the first, on a float32
    tensor of 3 channels that is at least 256 by 256. *)
Lemma train_transform_tail `{Kernels} r g :
  dtype_of r = float32 -> chans r = 3 ->
  256 <= height r -> 256 <= width r ->
  exists t,
    let '(angle, g1) := torch.uniform (Qopp 45) 45 g in
    let '(row, g2) := torch.randint 0 (height r - 224 + 1) g1 in
    let '(col, g3) := torch.randint 0 (width r - 224 + 1) g2 in
    let '(u, g4) := torch.rand g3 in
    let '(v, g5) := torch.rand g4 in
    Compose_call (tail train_transform) (Tensor r) g = Ok (Tensor t, g5) /\
    torch.tape g5 = torch.tape g /\ torch.pos g5 = torch.pos g + 5 /\
    dtype_of t = float32 /\ shape t = (3, 224, 224) /\
    forall k i j, k < 3 -> i < 224 -> j < 224 ->
      let i' := row + (if Qlt_le_dec v 0.5 then 224 - 1 - i else i) in
      let j' := col + (if Qlt_le_dec u 0.5 then 224 - 1 - j else j) in
      i' < height r /\ j' < width r /\
      item t k i j =
      np.divide_scalar float32
        (np.subtract_scalar float32
           (match rotate_source angle (height r) (width r) i' j' with
            | Some (a, b) => item r k a b
            | None => astype float32 (SFloat (ieee.of_literal 255))
            end)
           (astype float32
              (SFloat (ieee.of_literal (nth k [0.485; 0.456; 0.406]%Q 0%Q)))))
        (astype float32
           (SFloat (ieee.of_literal (nth k [0.229; 0.224; 0.225]%Q 0%Q)))).
Proof.
  intros Hd Hk Hh' Hw'.
  cbn [tail train_transform Compose_call apply on_tensor].
  assert (E1 : (height r <? 224) || (width r <? 224) = false).
  { apply orb_false_iff. split; apply Nat.ltb_ge; lia. }
  assert (E2 : (width r =? 224) && (height r =? 224) = false).
  { apply andb_false_iff. left. apply Nat.eqb_neq. lia. }
  unfold RandomRotation_forward, RandomCrop_forward,
    RandomHorizontalFlip_forward, RandomVerticalFlip_forward,
    torch.uniform, torch.rand, torch.randint, torch.random.
  cbn [on_tensor mbind result_bind bind mret result_ret
       F.rotate height width torch.tape torch.pos].
  rewrite E1, E2.
  cbn [on_tensor mbind result_bind bind mret result_ret torch.tape torch.pos].
  set (angle := Qplus _ _).
  set (row := 0 + N.to_nat _). set (col := 0 + N.to_nat _).
  set (u := Qmake (Z.of_N (N.modulo (torch.tape g (S (S (S (torch.pos g))))) _)) _).
  set (v := Qmake (Z.of_N (N.modulo (torch.tape g (S (S (S (S (torch.pos g)))))) _)) _).
  assert (Hrow : row <= height r - 224).
  { subst row. pose proof (mod_to_nat_lt (torch.tape g (S (torch.pos g)))
      (height r - 224 + 1 - 0)). lia. }
  assert (Hcol : col <= width r - 224).
  { subst col. pose proof (mod_to_nat_lt (torch.tape g (S (S (torch.pos g))))
      (width r - 224 + 1 - 0)). lia. }
  set (c := F.crop _ row col 224 224).
  set (c1 := if Qlt_le_dec u 0.5 then F.hflip c else c).
  set (c2 := if Qlt_le_dec v 0.5 then F.vflip c1 else c1).
  assert (Hc2 : dtype_of c2 = float32 /\ chans c2 = 3 /\
                height c2 = 224 /\ width c2 = 224).
  { subst c2 c1. by destruct (Qlt_le_dec u 0.5), (Qlt_le_dec v 0.5). }
  destruct Hc2 as (Hd2 & Hk2 & Hh2 & Hw2).
  destruct (normalize_imagenet c2 Hd2 Hk2) as (t & Ht & Hdt & Hst & Hi).
  rewrite Ht. cbn [mbind result_bind bind mret result_ret].
  exists t. split; [done|]. split; [done|].
  split; [lia|]. split; [done|].
  split; [by rewrite Hst; unfold shape; rewrite Hk2, Hh2, Hw2|].
  intros k i j Hk' Hi' Hj'.
  split; [destruct (Qlt_le_dec v 0.5); lia|].
  split; [destruct (Qlt_le_dec u 0.5); lia|].
  rewrite Hi by lia. do 2 f_equal.
  subst c2 c1 c.
  destruct (Qlt_le_dec u 0.5), (Qlt_le_dec v 0.5);
    cbn [item F.hflip F.vflip F.crop F.rotate height width];
    by rewrite Hd.
Qed.

(** The evaluation pipeline: for an array of 3 channels (or of 1, which is
    broadcast) with non-empty spatial dimensions it returns, without
    drawing from the generator, a float32 tensor of shape (3, 224, 224):
    the window of 224 by 224 at the centre of the result of
    [ReplaceChannelsByBIOTEMPTransform], which lies inside of it,
    normalized per channel with the constants of [Normalize]. *)
Theorem test_transform_values `{Kernels} data g :
  chans data = 3 \/ chans data = 1 -> 0 < height data -> 0 < width data ->
  exists r t,
    ReplaceChannelsByBIOTEMPTransform_call data = Ok r /\
    Compose_call test_transform (NdArray data) g = Ok (Tensor t, g) /\
    dtype_of t = float32 /\ shape t = (3, 224, 224) /\
    forall k i j, k < 3 -> i < 224 -> j < 224 ->
      let top := F.round_half (height r - 224) in
      let left := F.round_half (width r - 224) in
      top + i < height r /\ left + j < width r /\
      item t k i j =
      np.divide_scalar float32
        (np.subtract_scalar float32 (item r k (top + i) (left + j))
           (astype float32
              (SFloat (ieee.of_literal (nth k [0.485; 0.456; 0.406]%Q 0%Q)))))
        (astype float32
           (SFloat (ieee.of_literal (nth k [0.229; 0.224; 0.225]%Q 0%Q)))).
Proof.
  intros Hc Hh Hw.
  destruct (call_shape data Hc Hh Hw) as (r & Hr & _).
  destruct (call_at_least_256 data r Hr) as (Hd & Hk & Hh' & Hw').
  destruct (test_transform_tail r g Hd Hk) as (t & Ht & Hrest); [lia..|].
  exists r, t. split; [exact Hr|]. split; [|exact Hrest].
  unfold test_transform at 1. rewrite pipeline_first_step, Hr. exact Ht.
Qed.

Lemma test_transform_values_witness :
  exists r t,
    @ReplaceChannelsByBIOTEMPTransform_call sample_kernels
      (columns uint8 1 30 40 0) = Ok r /\
    @Compose_call sample_kernels test_transform
      (NdArray (columns uint8 1 30 40 0)) (constant_but 0 0 0) =
      Ok (Tensor t, constant_but 0 0 0) /\
    dtype_of t = float32 /\ shape t = (3, 224, 224).
Proof.
  destruct (@test_transform_values sample_kernels (columns uint8 1 30 40 0)
              (constant_but 0 0 0))
    as (r & t & Hr & Ht & Hd & Hs & _); [by right | cbn; lia | cbn; lia |].
  exists r, t. split; [exact Hr|]. split; [exact Ht|]. split; [exact Hd|exact Hs].
Defined.

(** The training pipeline: on the same inputs it returns a float32 tensor
    of shape (3, 224, 224) after exactly five draws from the generator,
    in this order: the angle of the rotation, the row and the column of
    the crop, the coin of the horizontal flip and the coin of the vertical
    flip.  An element of the result is the element of the rotated image at
    the crop offset plus its own index, mirrored within the window for
    each flip that took place; that element is a pixel of the result of
    [ReplaceChannelsByBIOTEMPTransform] or, where the rotation has no
    source, the fill value 255; it is normalized with the constants of
    [Normalize] either way.  The crop window lies inside of the image. *)
Theorem train_transform_values `{Kernels} data g :
  chans data = 3 \/ chans data = 1 -> 0 < height data -> 0 < width data ->
  exists r t,
    ReplaceChannelsByBIOTEMPTransform_call data = Ok r /\
    let '(angle, g1) := torch.uniform (Qopp 45) 45 g in
    let '(row, g2) := torch.randint 0 (height r - 224 + 1) g1 in
    let '(col, g3) := torch.randint 0 (width r - 224 + 1) g2 in
    let '(u, g4) := torch.rand g3 in
    let '(v, g5) := torch.rand g4 in
    Compose_call train_transform (NdArray data) g = Ok (Tensor t, g5) /\
    torch.tape g5 = torch.tape g /\ torch.pos g5 = torch.pos g + 5 /\
    dtype_of t = float32 /\ shape t = (3, 224, 224) /\
    forall k i j, k < 3 -> i < 224 -> j < 224 ->
      let i' := row + (if Qlt_le_dec v 0.5 then 224 - 1 - i else i) in
      let j' := col + (if Qlt_le_dec u 0.5 then 224 - 1 - j else j) in
      i' < height r /\ j' < width r /\
      item t k i j =
      np.divide_scalar float32
        (np.subtract_scalar float32
           (match rotate_source angle (height r) (width r) i' j' with
            | Some (a, b) => item r k a b
            | None => astype float32 (SFloat (ieee.of_literal 255))
            end)
           (astype float32
              (SFloat (ieee.of_literal (nth k [0.485; 0.456; 0.406]%Q 0%Q)))))
        (astype float32
           (SFloat (ieee.of_literal (nth k [0.229; 0.224; 0.225]%Q 0%Q)))).
Proof.
  intros Hc Hh Hw.
  destruct (call_shape data Hc Hh Hw) as (r & Hr & _).
  destruct (call_at_least_256 data r Hr) as (Hd & Hk & Hh' & Hw').
  destruct (train_transform_tail r g Hd Hk Hh' Hw') as (t & Ht).
  exists r, t. split; [exact Hr|].
  unfold train_transform at 1. rewrite pipeline_first_step, Hr. exact Ht.
Qed.

Lemma train_transform_values_witness :
  exists r t g',
    @ReplaceChannelsByBIOTEMPTransform_call sample_kernels
      (columns int16 3 40 30 0) = Ok r /\
    @Compose_call sample_kernels train_transform
      (NdArray (columns int16 3 40 30 0)) (constant_but 7 1 12) =
      Ok (Tensor t, g') /\
    torch.pos g' = 5 /\ dtype_of t = float32 /\ shape t = (3, 224, 224).
Proof.
  destruct (@train_transform_values sample_kernels (columns int16 3 40 30 0)
              (constant_but 7 1 12))
    as (r & t & Hr & Ht); [by left | cbn; lia | cbn; lia |].
  destruct (torch.uniform _ _ _) as [angle g1].
  destruct (torch.randint _ _ g1) as [row g2].
  destruct (torch.randint _ _ g2) as [col g3].
  destruct (torch.rand g3) as [u g4].
  destruct (torch.rand g4) as [v g5].
  destruct Ht as (Ht & _ & Hp & Hd & Hs & _).
  exists r, t, g5. split; [exact Hr|]. split; [exact Ht|].
  split; [exact Hp|]. split; [exact Hd|exact Hs].
Defined.

(** ** Failures of the pipelines *)

(** Either pipeline fails exactly when its first step,
    [ReplaceChannelsByBIOTEMPTransform], fails, and with the exception of
    that step: no later step of a pipeline raises. *)
Theorem pipelines_fail_with_first_step `{Kernels} data g e :
  (Compose_call train_transform (NdArray data) g = Raise e <->
   ReplaceChannelsByBIOTEMPTransform_call data = Raise e) /\
  (Compose_call test_transform (NdArray data) g = Raise e <->
   ReplaceChannelsByBIOTEMPTransform_call data = Raise e).
Proof.
  unfold train_transform at 1, test_transform at 1.
  rewrite !pipeline_first_step.
  destruct (ReplaceChannelsByBIOTEMPTransform_call data) as [r|e'] eqn:Hr;
    cbn [mbind result_bind bind].
  - destruct (call_at_least_256 data r Hr) as (Hd & Hk & Hh' & Hw').
    destruct (train_transform_tail r g Hd Hk Hh' Hw') as (t1 & H1).
    destruct (test_transform_tail r g Hd Hk) as (t2 & H2 & _); [lia..|].
    destruct (torch.uniform _ _ _) as [angle g1].
    destruct (torch.randint _ _ g1) as [row g2].
    destruct (torch.randint _ _ g2) as [col g3].
    destruct (torch.rand g3) as [u g4].
    destruct (torch.rand g4) as [v g5].
    destruct H1 as (H1 & _).
    change (tail train_transform) with
      [RandomRotation 45 255; RandomCrop 224; RandomHorizontalFlip;
       RandomVerticalFlip;
       Normalize [0.485; 0.456; 0.406]%Q [0.229; 0.224; 0.225]%Q] in H1.
    change (tail test_transform) with
      [CenterCrop 224;
       Normalize [0.485; 0.456; 0.406]%Q [0.229; 0.224; 0.225]%Q] in H2.
    rewrite H1, H2. split; split; discriminate.
  - split; split; intros [= ->]; reflexivity.
Qed.

(** ** [get_dataset] and its keyword arguments *)

(** Whenever [get_dataset] returns a dataset, [**kwargs] held none of
    the four keywords it passes by name, and reached the dataset class as
    it was given, beside these four. *)
Theorem get_dataset_passes_kwargs self split transform kwargs d :
  get_dataset self split transform kwargs = Ok d ->
  extra (args d) = kwargs /\
  kwargs !! "patch_data"%string = None /\
  kwargs !! "use_rasters"%string = None /\
  kwargs !! "patch_extractor"%string = None /\
  kwargs !! "transform"%string = None.
Proof.
  unfold get_dataset, repeats_keyword, keywords. cbn [existsb].
  repeat case_bool_decide; cbn [orb]; try discriminate.
  intros [= <-]. cbn [args extra].
  repeat match goal with
         | Hn : ~ is_Some _ |- _ => apply eq_None_not_Some in Hn
         end.
  done.
Qed.

Lemma get_dataset_passes_kwargs_witness :
  exists d,
    get_dataset (GeoLifeCLEF2022DataModule_init "data" None None None None)
      "train" train_transform {[ "download"%string := PyBool true ]} = Ok d /\
    extra (args d) = {[ "download"%string := PyBool true ]} /\
    ({[ "download"%string := PyBool true ]} : gmap string pyval)
      !! "patch_data"%string = None.
Proof.
  destruct (get_dataset _ _ _ _) as [d|e] eqn:Hd;
    [|vm_compute in Hd; discriminate Hd].
  exists d. split; [reflexivity|].
  destruct (get_dataset_passes_kwargs _ _ _ _ d Hd) as (He & Hp & _).
  split; [exact He|exact Hp].
Defined.

(** The flag [get_dataset] dispatches on is the one [__init__] was given,
    [False] when it was left out: a data module constructed from a path
    alone builds the full [GeoLifeCLEF2022Dataset], on that path. *)
Theorem init_then_get_dataset path flag tb ib nw split transform kwargs :
  repeats_keyword kwargs = false ->
  exists d,
    get_dataset (GeoLifeCLEF2022DataModule_init path flag tb ib nw)
      split transform kwargs = Ok d /\
    cls d = match flag with
            | Some true => MiniGeoLifeCLEF2022Dataset
            | Some false | None => GeoLifeCLEF2022Dataset
            end /\
    arg_root (args d) = path /\
    root_path (patch_extractor (args d)) = [path; "rasters"%string].
Proof.
  intros Hk. rewrite get_dataset_ok by done. eexists. split; [done|].
  by destruct flag as [[]|].
Qed.

Lemma init_then_get_dataset_witness :
  exists d,
    get_dataset (GeoLifeCLEF2022DataModule_init "data" None None None None)
      "train" train_transform ∅ = Ok d /\
    cls d = GeoLifeCLEF2022Dataset /\
    arg_root (args d) = "data"%string /\
    root_path (patch_extractor (args d)) = ["data"; "rasters"]%string.
Proof.
  apply (init_then_get_dataset "data" None None None None).
  vm_compute. reflexivity.
Defined.

(** ** Missing raster values *)

(** The value the patch extractor of [get_dataset] puts in place of a
    missing value of raster number [k] is the constant [mu] holds for
    channel [k]: where a floating-point array of 3 channels holds it,
    the normalization of [__call__] yields exactly zero. *)
Theorem missing_values_normalize_to_zero self split transform kwargs data :
  chans data = 3 -> is_floating (dtype_of data) = true ->
  repeats_keyword kwargs = false ->
  exists d t,
    get_dataset self split transform kwargs = Ok d /\
    normalized data = Ok t /\
    forall k r i j,
      rasters (patch_extractor (args d)) !! k = Some r ->
      i < height data -> j < width data ->
      item data k i j =
        astype (dtype_of data) (SFloat (ieee.of_literal (nan r))) ->
      item t k i j = SFloat (S754_zero false).
Proof.
  intros Hc Hf Hk. rewrite get_dataset_ok by done.
  destruct (normalized_ok data (or_introl Hc)) as (t & Ht & _ & _ & _ & _ & Hi).
  eexists _, t. split; [done|]. split; [done|].
  cbn [args patch_extractor rasters].
  intros k r i j Hr Hi' Hj' Hx. rewrite Hi by done.
  rewrite Hc, bidx_3, Hx.
  destruct k as [|[|[|k]]]; [| | |done]; injection Hr as <-;
    destruct (dtype_of data); try discriminate Hf; by vm_compute.
Qed.

Lemma missing_values_normalize_to_zero_witness :
  exists d t,
    get_dataset (GeoLifeCLEF2022DataModule_init "data" None None None None)
      "train" train_transform ∅ = Ok d /\
    normalized (columns float32 3 1 1 1) = Ok t /\
    forall k r i j,
      rasters (patch_extractor (args d)) !! k = Some r ->
      i < 1 -> j < 1 ->
      item (columns float32 3 1 1 1) k i j =
        astype float32 (SFloat (ieee.of_literal (nan r))) ->
      item t k i j = SFloat (S754_zero false).
Proof.
  apply (missing_values_normalize_to_zero
           (GeoLifeCLEF2022DataModule_init "data" None None None None)
           "train" train_transform ∅ (columns float32 3 1 1 1));
    [reflexivity | reflexivity | vm_compute; reflexivity].
Defined.

(** ** The evaluation result among the training results *)

Lemma mod_to_nat_small n m : n < m -> N.to_nat (N.of_nat n mod N.of_nat m) = n.
Proof. intros Hn. rewrite N.mod_small by lia. apply Nat2N.id. Qed.

(** What the evaluation pipeline returns is one of the results of the
    training pipeline: for the draws that give the angle 0, the offsets of
    the central window and no flip, the two pipelines return tensors of
    one shape that hold the same elements.  (The rotation kernel is taken
    to leave an image unchanged at angle 0.) *)
Theorem test_result_is_a_train_result `{Kernels} data :
  (forall angle h w i j,
      (angle == 0)%Q -> i < h -> j < w ->
      rotate_source angle h w i j = Some (i, j)) ->
  chans data = 3 \/ chans data = 1 -> 0 < height data -> 0 < width data ->
  exists g g' t1 t2,
    Compose_call train_transform (NdArray data) g = Ok (Tensor t1, g') /\
    Compose_call test_transform (NdArray data) g = Ok (Tensor t2, g) /\
    dtype_of t1 = dtype_of t2 /\ shape t1 = shape t2 /\
    forall k i j, k < 3 -> i < 224 -> j < 224 -> item t1 k i j = item t2 k i j.
Proof.
  intros rotate_zero Hc Hh Hw.
  destruct (call_shape data Hc Hh Hw) as (r & Hr & _).
  destruct (call_at_least_256 data r Hr) as (Hd & Hk & Hh' & Hw').
  set (row := F.round_half (height r - 224)).
  set (col := F.round_half (width r - 224)).
  pose proof (round_half_le (height r - 224)) as Hrow. fold row in Hrow.
  pose proof (round_half_le (width r - 224)) as Hcol. fold col in Hcol.
  set (g := {| torch.tape := fun n =>
                 match n with
                 | 1 => N.of_nat row
                 | 2 => N.of_nat col
                 | _ => 8388608%N
                 end;
               torch.pos := 0 |}).
  destruct (train_transform_tail r g Hd Hk Hh' Hw') as (t1 & H1).
  destruct (test_transform_tail r g Hd Hk) as (t2 & H2 & Hd2 & Hs2 & Hi2);
    [lia..|].
  unfold torch.uniform, torch.rand, torch.randint, torch.random in H1.
  cbn [torch.tape torch.pos g] in H1.
  rewrite Nat.sub_0_r, !Nat.add_0_l in H1.
  rewrite !mod_to_nat_small in H1 by lia.
  set (u := Qmake _ _) in H1.
  destruct (Qlt_le_dec u 0.5) as [Hlt|_]; [by vm_compute in Hlt|].
  destruct H1 as (H1 & _ & _ & Hd1 & Hs1 & Hi1).
  eexists g, _, t1, t2.
  unfold train_transform at 1, test_transform at 1.
  rewrite !pipeline_first_step, Hr. cbn [mbind result_bind bind].
  split; [exact H1|]. split; [exact H2|].
  split; [congruence|]. split; [congruence|].
  intros k i j Hk' Hi Hj.
  destruct (Hi1 k i j Hk' Hi Hj) as (Hi' & Hj' & ->).
  destruct (Hi2 k i j Hk' Hi Hj) as (_ & _ & ->).
  by rewrite rotate_zero by done.
Qed.

Lemma test_result_is_a_train_result_witness :
  exists g g' t1 t2,
    @Compose_call sample_kernels train_transform
      (NdArray (columns float32 3 300 400 0)) g = Ok (Tensor t1, g') /\
    @Compose_call sample_kernels test_transform
      (NdArray (columns float32 3 300 400 0)) g = Ok (Tensor t2, g) /\
    dtype_of t1 = dtype_of t2 /\ shape t1 = shape t2 /\
    forall k i j, k < 3 -> i < 224 -> j < 224 -> item t1 k i j = item t2 k i j.
Proof.
  apply (@test_result_is_a_train_result sample_kernels
           (columns float32 3 300 400 0));
    [reflexivity | by left | cbn; lia | cbn; lia].
Defined.
